(** * Nurse Ally mock backend (server/mock-api.js)

    A shallow embedding of the request handlers of the mock backend and of the
    three pure helpers they call: [mockTriageSymptoms], [mockFindClinic] and
    [mockInsuranceCheck].

    Conventions of the embedding.
    - A JavaScript string is the sequence of bytes of its UTF-8 encoding
      ([string]); substring search on well-formed text is the same on either
      encoding.
    - [String.prototype.toLowerCase] is a built-in of the host: the handlers
      are written against the interface [StringCase], and every general
      theorem holds for any implementation of it.  [ascii_case] (A-Z to a-z)
      is the instance used to run the handlers on concrete ASCII requests.
    - A plain object used as a map ([clinics], [conversationStore]) is a
      finite map of its own properties together with the properties every
      plain object inherits from [Object.prototype]; see [get_property].
    - The handlers mutate the module-level [conversationStore]: they are
      functions from the store before a request to a response and the store
      after it. *)

From Stdlib Require Import String Ascii List Bool Lia.
From stdpp Require Import base strings pretty gmap list.

Local Open Scope string_scope.

(** ** Strings *)

Module JsString.

(** [s.includes(sub)]: [sub] occurs in [s] at some position. *)
Fixpoint includes (s sub : string) : bool :=
  String.prefix sub s ||
  match s with
  | EmptyString => false
  | String _ rest => includes rest sub
  end.

(** [keywords.some(keyword => s.includes(keyword))]. *)
Definition some_included (s : string) (keywords : list string) : bool :=
  existsb (includes s) keywords.

(** [lines.join(sep)]. *)
Fixpoint join (sep : string) (parts : list string) : string :=
  match parts with
  | [] => ""
  | [p] => p
  | p :: rest => p +:+ sep +:+ join sep rest
  end.

(** The line feed of a template literal that spans lines, and of ['\n']. *)
Definition nl : string := String (ascii_of_nat 10) EmptyString.

(** The built-in case conversion, as an interface. *)
Class StringCase := toLowerCase : string -> string.

Definition lower_ascii (c : ascii) : ascii :=
  let n := nat_of_ascii c in
  if (65 <=? n)%nat && (n <=? 90)%nat then ascii_of_nat (n + 32) else c.

Fixpoint lower_string (s : string) : string :=
  match s with
  | EmptyString => EmptyString
  | String c rest => String (lower_ascii c) (lower_string rest)
  end.

(** Case conversion of ASCII text: the letters A-Z become a-z, every other
    byte is kept. *)
#[export] Instance ascii_case : StringCase := lower_string.

End JsString.
Export JsString.

(** ** Plain objects used as maps *)

Module JsObject.

(** The property names a plain object inherits from [Object.prototype]
    (ECMAScript 2015 and later, the legacy accessors of Annex B included).
    Each of them reads as a function, or for [__proto__] as the prototype
    object itself: a value that is truthy and has no [push] and no [map]. *)
Definition Object_prototype : list string :=
  [ "constructor"; "hasOwnProperty"; "isPrototypeOf"; "propertyIsEnumerable";
    "toLocaleString"; "toString"; "valueOf"; "__proto__";
    "__defineGetter__"; "__defineSetter__"; "__lookupGetter__";
    "__lookupSetter__" ].

(** What [obj[key]] evaluates to. *)
Inductive Property (A : Type) : Type :=
| Own (value : A)          (* a property of the object itself *)
| Inherited (key : string) (* a member of the prototype *)
| Undefined.               (* [undefined] *)
Arguments Own {A} value.
Arguments Inherited {A} key.
Arguments Undefined {A}.

(** [obj[key]]: the object's own property, else the prototype's. *)
Definition get_property {A : Type} (obj : gmap string A) (key : string)
  : Property A :=
  match obj !! key with
  | Some v => Own v
  | None =>
      if bool_decide (key ∈ Object_prototype) then Inherited key else Undefined
  end.

(** [delete obj[key]]: removes an own property; it is not an error when the
    object has no such property of its own. *)
Definition delete_property {A : Type} (obj : gmap string A) (key : string)
  : gmap string A :=
  delete key obj.

End JsObject.
Export JsObject.

(** ** Triage classifier *)

Record TriageResult : Type := {
  urgency_level : string;
  reasoning : string;
  recommendations : list string
}.

(** The object literal [urgencyKeywords], as [Object.entries] lists it: in
    the order the keys are written. *)
Definition urgencyKeywords : list (string * list string) :=
  [ ("emergency", ["chest pain"; "difficulty breathing"; "severe bleeding";
                   "unconscious"; "stroke"; "heart attack"]);
    ("high", ["severe pain"; "high fever"; "vomiting blood";
              "severe headache"; "difficulty swallowing"]);
    ("medium", ["fever"; "persistent cough"; "moderate pain"; "rash";
                "nausea"]);
    ("low", ["mild headache"; "minor cut"; "cold symptoms"; "fatigue"]) ].

Definition low_recommendations : list string :=
  ["Monitor symptoms"; "Rest and self-care";
   "Contact doctor if symptoms persist"].

(** The conditional chain on [level] of the matching branch. *)
Definition recommendations_of (level : string) : list string :=
  if String.eqb level "emergency" then
    ["Call 911 immediately"; "Go to nearest emergency room"]
  else if String.eqb level "high" then
    ["Seek immediate medical attention";
     "Visit urgent care or emergency room"]
  else if String.eqb level "medium" then
    ["Schedule appointment with primary care";
     "Consider urgent care if symptoms worsen"]
  else low_recommendations.

Definition matched_result (level : string) : TriageResult :=
  {| urgency_level := level;
     reasoning :=
       "Based on the symptoms described, this appears to be " +:+ level
       +:+ " urgency.";
     recommendations := recommendations_of level |}.

(** The result returned after the loop, when no keyword occurred. *)
Definition default_result : TriageResult :=
  {| urgency_level := "low";
     reasoning := "Symptoms appear to be minor and manageable.";
     recommendations := low_recommendations |}.

(** The [for ... of Object.entries(urgencyKeywords)] loop: the first entry
    with a keyword that occurs in [lowerSymptoms] returns. *)
Fixpoint triage_entries (lowerSymptoms : string)
    (entries : list (string * list string)) : option TriageResult :=
  match entries with
  | [] => None
  | (level, keywords) :: rest =>
      if some_included lowerSymptoms keywords then Some (matched_result level)
      else triage_entries lowerSymptoms rest
  end.

Definition mockTriageSymptoms `{StringCase} (symptoms : string)
  : TriageResult :=
  let lowerSymptoms := toLowerCase symptoms in
  match triage_entries lowerSymptoms urgencyKeywords with
  | Some result => result
  | None => default_result
  end.

(** ** Clinic directory *)

Record Clinic : Type := {
  name : string;
  address : string;
  phone : string;
  type : string;
  wait_time : string;
  accepts_insurance : bool
}.

(** The object [mockFindClinic] returns.  Its [urgency_level] field is named
    [search_urgency_level] here, the name being taken by [TriageResult]. *)
Record ClinicSearch : Type := {
  clinics : Property (list Clinic);
  location : string;
  search_urgency_level : string
}.

(** The object literal [clinics] of [mockFindClinic]. *)
Definition clinic_table (location : string) : gmap string (list Clinic) :=
  list_to_map
    [ ("emergency",
       [ {| name := "City General Hospital Emergency Room";
            address := "123 Main St, " +:+ location;
            phone := "(555) 911-1234";
            type := "Emergency Room";
            wait_time := "15-30 minutes";
            accepts_insurance := true |} ]);
      ("high",
       [ {| name := "QuickCare Urgent Care";
            address := "456 Oak Ave, " +:+ location;
            phone := "(555) 555-0123";
            type := "Urgent Care";
            wait_time := "30-45 minutes";
            accepts_insurance := true |} ]);
      ("medium",
       [ {| name := "Family Health Center";
            address := "789 Pine St, " +:+ location;
            phone := "(555) 555-0456";
            type := "Primary Care";
            wait_time := "Same day appointments available";
            accepts_insurance := true |} ]);
      ("low",
       [ {| name := "Community Health Clinic";
            address := "321 Elm St, " +:+ location;
            phone := "(555) 555-0789";
            type := "Primary Care";
            wait_time := "Next day appointments";
            accepts_insurance := true |} ]) ].

(** [a || b] on a property read: an array (even an empty one) and an
    inherited member are truthy, [undefined] is not. *)
Definition or_else {A : Type} (a b : Property A) : Property A :=
  match a with
  | Undefined => b
  | _ => a
  end.

Definition mockFindClinic (location urgency : string) : ClinicSearch :=
  let table := clinic_table location in
  {| clinics := or_else (get_property table urgency) (get_property table "low");
     location := location;
     search_urgency_level := urgency |}.

(** ** Insurance summariser *)

Record InsuranceSummary : Type := {
  plan_name : string;
  provider : string;
  member_id : string;
  group_number : string;
  coverage_details : list (string * string);
  key_benefits : list string;
  filename : string
}.

Definition mockInsuranceCheck (filename : string) : InsuranceSummary :=
  {| plan_name := "Health Plus Premium Plan";
     provider := "Blue Cross Blue Shield";
     member_id := "ABC123456789";
     group_number := "GRP001";
     coverage_details :=
       [ ("primary_care", "$25 copay");
         ("specialist", "$50 copay");
         ("urgent_care", "$75 copay");
         ("emergency_room", "$300 copay");
         ("prescription_drugs", "$10/$30/$60 copay") ];
     key_benefits :=
       [ "Preventive care covered 100%";
         "Annual deductible: $1,500";
         "Out-of-pocket maximum: $6,000";
         "Network coverage nationwide" ];
     filename := filename |}.

(** ** Conversation store *)

Record Message : Type := {
  role : string;
  content : string
}.

(** The own properties of [conversationStore]: a message array per user. *)
Abbreviation Store := (gmap string (list Message)).

(** Lines 157-159: the session is created when [conversationStore[user_id]]
    is falsy.  An array and an inherited member are truthy. *)
Definition init_session (store : Store) (user_id : string) : Store :=
  match get_property store user_id with
  | Undefined => <[user_id := []]> store
  | Own _ | Inherited _ => store
  end.

(** [conversationStore[user_id].push(m)].  [None] is the [TypeError] of
    calling [push] on a value that has none. *)
Definition push (store : Store) (user_id : string) (m : Message)
  : option Store :=
  match get_property store user_id with
  | Own messages => Some (<[user_id := (messages ++ [m])%list]> store)
  | Inherited _ | Undefined => None
  end.

(** The store's append: lines 157-162, creation on demand and [push]. *)
Definition append (store : Store) (user_id : string) (m : Message)
  : option Store :=
  push (init_session store user_id) user_id m.

(** The session of [user_id] as stored: the messages under its key, and no
    message when the store has no such key. *)
Definition get_history (store : Store) (user_id : string) : list Message :=
  default [] (store !! user_id).

(** ** Requests and responses *)

Record Profile : Type := {
  profile_location : option string
}.

(** The JSON body of a chat request, its fields at their declared types; a
    field that is absent is [None]. *)
Record ChatRequest : Type := {
  message : option string;
  profile : option Profile;
  user_id : option string
}.

Record UploadedFile : Type := {
  originalname : string;
  mimetype : string;
  file_content : string
}.

Inductive Json : Type :=
| ErrorJson (error : string)
| ChatJson (reply status thread_id : string)
| UploadJson (status filename : string)
    (insurance_summary : InsuranceSummary) (message : string)
| StatusJson (status message : string)
| HealthJson (status service : string).

Record Response : Type := {
  status_code : nat;
  body : Json
}.

(** [res.json(b)] and [res.status(code).json(b)]. *)
Definition json (b : Json) : Response := {| status_code := 200; body := b |}.
Definition status_json (code : nat) (b : Json) : Response :=
  {| status_code := code; body := b |}.

(** What a [try] block does: it returns, or it throws. *)
Inductive Outcome (A : Type) : Type :=
| Returned (value : A)
| Thrown (error : string).
Arguments Returned {A} value.
Arguments Thrown {A} error.

(** ** Reply composer *)

Definition bullet : string := "• ".

Definition warning_sentence : string :=
  "⚠️ If this is a medical emergency, please call 911 immediately.".

Definition disclaimer_sentence : string :=
  "Please remember that I'm a virtual assistant and cannot replace professional medical evaluation.".

Definition greeting_reply : string :=
  "Hello! I'm Nurse Ally, your virtual nursing assistant. I'm here to help you understand your symptoms and guide you to appropriate care. What symptoms are you experiencing today?".

Definition insurance_reply : string :=
  "I can help you understand your insurance coverage! If you have your insurance card or policy document, you can upload it and I'll help you understand your benefits. You can also tell me your insurance provider and I'll give you general guidance about finding in-network providers.".

Definition fallback_reply : string :=
  "Thank you for sharing that with me. I'm here to help assess your symptoms and guide you to appropriate care. "
  +:+ nl +:+ nl
  +:+ "Could you tell me more about:" +:+ nl
  +:+ "• What specific symptoms you're experiencing?" +:+ nl
  +:+ "• How long you've had these symptoms?" +:+ nl
  +:+ "• How severe they are on a scale of 1-10?" +:+ nl
  +:+ nl
  +:+ "This information will help me better understand your situation and provide appropriate guidance. Remember, if you're experiencing a medical emergency, please call 911 immediately.".

(** [triage.recommendations.map(rec => `• ${rec}`).join('\n')]. *)
Definition recommendation_lines (triage : TriageResult) : string :=
  join nl (map (fun rec => bullet +:+ rec) (recommendations triage)).

Definition pain_clinic_line (clinic : Clinic) : string :=
  bullet +:+ name clinic +:+ " - " +:+ address clinic +:+ " - "
  +:+ phone clinic +:+ " (" +:+ wait_time clinic +:+ ")".

Definition pain_reply (triage : TriageResult) (location : string)
    (found : list Clinic) : string :=
  "I understand you're experiencing pain. Based on your symptoms, I've assessed this as "
  +:+ urgency_level triage +:+ " urgency. " +:+ reasoning triage +:+ nl
  +:+ nl
  +:+ "My recommendations:" +:+ nl
  +:+ recommendation_lines triage +:+ nl
  +:+ nl
  +:+ "Here are some nearby healthcare options in " +:+ location +:+ ":" +:+ nl
  +:+ join nl (map pain_clinic_line found) +:+ nl
  +:+ nl
  +:+ (if String.eqb (urgency_level triage) "emergency"
       then warning_sentence else disclaimer_sentence).

Definition fever_reply (triage : TriageResult) : string :=
  "I see you're experiencing a fever. This is concerning and I want to help you get the right care. Based on your symptoms, I've assessed this as "
  +:+ urgency_level triage +:+ " urgency." +:+ nl
  +:+ nl
  +:+ reasoning triage +:+ nl
  +:+ nl
  +:+ "My recommendations:" +:+ nl
  +:+ recommendation_lines triage +:+ nl
  +:+ nl
  +:+ "In the meantime, make sure to stay hydrated and rest. If your fever is very high (over 103°F) or you're experiencing difficulty breathing, please seek immediate medical attention.".

Definition clinic_card (clinic : Clinic) : string :=
  bullet +:+ name clinic +:+ nl
  +:+ "  " +:+ address clinic +:+ nl
  +:+ "  " +:+ phone clinic +:+ nl
  +:+ "  " +:+ wait_time clinic.

Definition clinic_reply (location : string) (found : list Clinic) : string :=
  "I can help you find healthcare providers in " +:+ location
  +:+ ". Here are some options:" +:+ nl
  +:+ nl
  +:+ join (nl +:+ nl) (map clinic_card found) +:+ nl
  +:+ nl
  +:+ "Would you like me to help you understand what type of care might be best for your specific symptoms?".

(** [profile.location || 'your area']: the empty string is falsy. *)
Definition location_of (p : Profile) : string :=
  match profile_location p with
  | Some l => if String.eqb l "" then "your area" else l
  | None => "your area"
  end.

(** [clinics.clinics.map(f)]: a [TypeError] on a value that is no array. *)
Definition with_clinics (search : ClinicSearch)
    (render : list Clinic -> string) : Outcome string :=
  match clinics search with
  | Own found => Returned (render found)
  | Inherited _ | Undefined =>
      Thrown "TypeError: clinics.clinics.map is not a function"
  end.

(** Lines 164-214: the reply, by the first condition that holds. *)
Definition compose_reply `{StringCase} (message : string) (p : Profile)
  : Outcome string :=
  let lowerMessage := toLowerCase message in
  if includes lowerMessage "hello" || includes lowerMessage "hi" then
    Returned greeting_reply
  else if includes lowerMessage "pain" || includes lowerMessage "hurt"
          || includes lowerMessage "ache" then
    let triage := mockTriageSymptoms message in
    let location := location_of p in
    with_clinics (mockFindClinic location (urgency_level triage))
      (pain_reply triage location)
  else if includes lowerMessage "fever"
          || includes lowerMessage "temperature" then
    let triage := mockTriageSymptoms message in
    Returned (fever_reply triage)
  else if includes lowerMessage "insurance"
          || includes lowerMessage "coverage" then
    Returned insurance_reply
  else if includes lowerMessage "clinic" || includes lowerMessage "doctor"
          || includes lowerMessage "appointment" then
    let location := location_of p in
    with_clinics (mockFindClinic location "medium") (clinic_reply location)
  else
    Returned fallback_reply.

(** ** Request handlers *)

Definition message_required : Response :=
  status_json 400 (ErrorJson "Message is required").

Definition internal_server_error : Response :=
  status_json 500 (ErrorJson "Internal server error").

Definition push_error : string :=
  "TypeError: conversationStore[user_id].push is not a function".

(** POST /api/chat, the [try] block.  [now] is the value of [Date.now()].
    The store that is returned holds whatever was written before a throw. *)
Definition chat_try `{StringCase} (now : N) (req : ChatRequest)
    (store : Store) : Outcome Response * Store :=
  let p := default {| profile_location := None |} (profile req) in
  let user := default "default" (user_id req) in
  match message req with
  | None => (Returned message_required, store)
  | Some text =>
      if String.eqb text "" then (Returned message_required, store)
      else
        let store1 := init_session store user in
        match push store1 user {| role := "user"; content := text |} with
        | None => (Thrown push_error, store1)
        | Some store2 =>
            match compose_reply text p with
            | Thrown e => (Thrown e, store2)
            | Returned reply =>
                match
                  push store2 user {| role := "assistant"; content := reply |}
                with
                | None => (Thrown push_error, store2)
                | Some store3 =>
                    (Returned
                       (json (ChatJson reply "success"
                                ("thread_" +:+ user +:+ "_" +:+ pretty now))),
                     store3)
                end
            end
        end
  end.

(** POST /api/chat: the [catch] clause answers 500 to whatever was thrown. *)
Definition chat `{StringCase} (now : N) (req : ChatRequest) (store : Store)
  : Response * Store :=
  match chat_try now req store with
  | (Returned response, store') => (response, store')
  | (Thrown _, store') => (internal_server_error, store')
  end.

(** POST /api/upload; [file] is [req.file]. *)
Definition upload (file : option UploadedFile) : Response :=
  match file with
  | None => status_json 400 (ErrorJson "No file provided")
  | Some f =>
      if negb (String.eqb (mimetype f) "application/pdf") then
        status_json 400 (ErrorJson "Only PDF files are allowed")
      else
        json (UploadJson "success" (originalname f)
                (mockInsuranceCheck (originalname f))
                "Insurance document processed successfully")
  end.

(** POST /api/reset-conversation; [uid] is the body's [user_id]. *)
Definition reset_conversation (uid : option string) (store : Store)
  : Response * Store :=
  let user := default "default" uid in
  let store' :=
    match get_property store user with
    | Own _ | Inherited _ => delete_property store user
    | Undefined => store
    end in
  (json (StatusJson "success" "Conversation reset successfully"), store').

(** The store's reset: what the reset handler does to the store. *)
Definition reset (store : Store) (user_id : string) : Store :=
  (reset_conversation (Some user_id) store).2.

(** The API routes, and the server's step on one request. *)
Inductive Request : Type :=
| GetHealth
| PostChat (now : N) (req : ChatRequest)
| PostUpload (file : option UploadedFile)
| PostResetConversation (uid : option string).

Definition handle `{StringCase} (r : Request) (store : Store)
  : Response * Store :=
  match r with
  | GetHealth => (json (HealthJson "healthy" "Nurse Ally Backend"), store)
  | PostChat now req => chat now req store
  | PostUpload file => (upload file, store)
  | PostResetConversation uid => reset_conversation uid store
  end.

(** ** Vocabulary of the statements *)

(** The four tiers, in the order [urgencyKeywords] declares them. *)
Definition tiers : list string := map fst urgencyKeywords.

(** The keywords [urgencyKeywords] holds under the key [level]. *)
Definition tier_keywords (level : string) : list string :=
  match find (fun entry => String.eqb (fst entry) level) urgencyKeywords with
  | Some (_, keywords) => keywords
  | None => []
  end.

(** Some keyword of the tier [level] occurs in [lower]. *)
Definition tier_hit (lower level : string) : bool :=
  some_included lower (tier_keywords level).

(** Every keyword of every tier. *)
Definition all_keywords : list string := concat (map snd urgencyKeywords).

(** The pain template up to its closing sentence. *)
Definition pain_reply_body (triage : TriageResult) (location : string)
    (found : list Clinic) : string :=
  "I understand you're experiencing pain. Based on your symptoms, I've assessed this as "
  +:+ urgency_level triage +:+ " urgency. " +:+ reasoning triage +:+ nl
  +:+ nl
  +:+ "My recommendations:" +:+ nl
  +:+ recommendation_lines triage +:+ nl
  +:+ nl
  +:+ "Here are some nearby healthcare options in " +:+ location +:+ ":" +:+ nl
  +:+ join nl (map pain_clinic_line found) +:+ nl
  +:+ nl.

(** ** Error middleware *)

(** What reaches the error-handling middleware: an error of multer with
    its [code], or any other error. *)
Inductive ServerError : Type :=
| MulterError (code : string)
| OtherError (description : string).

(** Lines 281-288. *)
Definition error_handler (err : ServerError) : Response :=
  match err with
  | MulterError code =>
      if String.eqb code "LIMIT_FILE_SIZE" then
        status_json 413 (ErrorJson "File too large. Maximum size is 16MB.")
      else internal_server_error
  | OtherError _ => internal_server_error
  end.

(** ** Vocabulary of the further statements *)

(** The severity of a tier: emergency above high above medium above low. *)
Definition severity (level : string) : nat :=
  if String.eqb level "emergency" then 3
  else if String.eqb level "high" then 2
  else if String.eqb level "medium" then 1
  else 0.



(** * Chat client (src/App.tsx)

    The component's state is a record of its [useState] cells, and each
    event handler is a function from the state (and what the handler reads
    from outside: the clock, the file picked, the outcome of [fetch]) to the
    state after the handler has run to its end.  A handler is taken to run
    with no other event in between; rendering is left out. *)

Module App.

(** [String.prototype.trim], a built-in of the host, as an interface: the
    client only tests whether the trimmed input is empty. *)
Class StringTrim := {
  trim : string -> string;
  trim_empty : trim "" = ""
}.

Definition is_space (c : ascii) : bool :=
  let n := nat_of_ascii c in
  ((9 <=? n)%nat && (n <=? 13)%nat) || (n =? 32)%nat.

Fixpoint trim_start (s : string) : string :=
  match s with
  | EmptyString => EmptyString
  | String c rest => if is_space c then trim_start rest else s
  end.

Fixpoint reverse (s acc : string) : string :=
  match s with
  | EmptyString => acc
  | String c rest => reverse rest (String c acc)
  end.

Definition trim_ascii (s : string) : string :=
  reverse (trim_start (reverse (trim_start s) "")) "".

(** Trimming of ASCII text: tab, line feed, vertical tab, form feed,
    carriage return and space are removed at both ends. *)
#[global] Instance ascii_trim : StringTrim :=
  {| trim := trim_ascii; trim_empty := eq_refl |}.

Record Message : Type := {
  id : string;
  text : string;
  sender : string;
  timestamp : N
}.

(** The object [handleFileUpload] stores under [insurance_summary]. *)
Record InsuranceInfo : Type := {
  plan_name : string;
  copay : string;
  coverage : string
}.

Record UserProfile : Type := {
  location : string;
  insurance_summary : option InsuranceInfo
}.

(** A file of the file input: its [name] and its [type]. *)
Record File : Type := {
  name : string;
  type : string
}.

Record State : Type := {
  messages : list Message;
  inputMessage : string;
  isLoading : bool;
  profile : UserProfile;
  showProfile : bool;
  uploadedFile : option File
}.

Definition greeting : string :=
  "Hello! I'm Nurse Ally, your virtual nurse assistant. I'm here to help you with symptom assessment, finding nearby clinics, and understanding your healthcare options. How are you feeling today?".

(** The first message of a conversation; [date] is [new Date()]. *)
Definition greeting_message (date : N) : Message :=
  {| id := "1"; text := greeting; sender := "assistant"; timestamp := date |}.

(** The state of the component when it is mounted. *)
Definition initial (date : N) : State :=
  {| messages := [greeting_message date];
     inputMessage := "";
     isLoading := false;
     profile := {| location := ""; insurance_summary := None |};
     showProfile := false;
     uploadedFile := None |}.

Definition headache_fever_response : string :=
  "I understand you're experiencing a headache and fever. These symptoms could indicate various conditions. Let me assess the urgency:"
  +:+ nl
  +:+ nl
  +:+ "🔍 **Symptom Assessment**: Medium urgency"
  +:+ nl
  +:+ nl
  +:+ "📋 **Recommendation**: I recommend scheduling an appointment with your primary care physician within 24-48 hours. In the meantime, you can:"
  +:+ nl
  +:+ nl
  +:+ "• Rest and stay hydrated"
  +:+ nl
  +:+ "• Take over-the-counter pain relievers as directed"
  +:+ nl
  +:+ "• Monitor your temperature"
  +:+ nl
  +:+ nl
  +:+ "If your fever rises above 103°F or you develop severe symptoms, please seek immediate medical attention. Would you like me to help you find nearby clinics?".

Definition chest_pain_response : string :=
  "⚠️ **URGENT**: Chest pain can be a serious symptom that requires immediate medical attention."
  +:+ nl
  +:+ nl
  +:+ "🚨 **Recommendation**: Please call 911 immediately or go to the nearest emergency room right away."
  +:+ nl
  +:+ nl
  +:+ "Do not drive yourself - have someone drive you or call an ambulance. Chest pain could indicate a heart attack or other serious cardiac condition that needs immediate evaluation."
  +:+ nl
  +:+ nl
  +:+ "Is someone available to help you get to the hospital right now?".

Definition clinic_response : string :=
  "I'd be happy to help you find nearby healthcare providers! Based on your location, here are some options:"
  +:+ nl
  +:+ nl
  +:+ "🏥 **Nearby Clinics**:"
  +:+ nl
  +:+ nl
  +:+ "**QuickCare Urgent Care**"
  +:+ nl
  +:+ "📍 789 Quick St"
  +:+ nl
  +:+ "📞 (555) 555-0123"
  +:+ nl
  +:+ "⏰ Wait time: 30-60 minutes"
  +:+ nl
  +:+ "🚶‍♀️ Walk-ins welcome"
  +:+ nl
  +:+ nl
  +:+ "**Family Health Center**"
  +:+ nl
  +:+ "📍 555 Health Dr"
  +:+ nl
  +:+ "📞 (555) 555-0200"
  +:+ nl
  +:+ "⏰ Same day appointments available"
  +:+ nl
  +:+ "📅 Appointment required"
  +:+ nl
  +:+ nl
  +:+ "Would you like me to provide more details about any of these options or help you with insurance coverage information?".

Definition fallback_response : string :=
  "Thank you for sharing that with me. I'm here to help assess your symptoms and guide you to appropriate care. Could you tell me more about what you're experiencing? For example:"
  +:+ nl
  +:+ nl
  +:+ "• What symptoms are you having?"
  +:+ nl
  +:+ "• When did they start?"
  +:+ nl
  +:+ "• How severe are they on a scale of 1-10?"
  +:+ nl
  +:+ "• Have you tried any treatments?"
  +:+ nl
  +:+ nl
  +:+ "The more details you can provide, the better I can assist you with finding the right level of care.".

(** Lines 103-119. *)
Definition generateMockResponse `{StringCase} (userInput : string) : string :=
  let input := toLowerCase userInput in
  if includes input "headache" || includes input "fever" then
    headache_fever_response
  else if includes input "chest pain" then chest_pain_response
  else if includes input "clinic" || includes input "doctor"
          || includes input "appointment" then clinic_response
  else fallback_response.

(** How the [fetch] of [sendMessage] ends: with a response that is [ok]
    and whose body holds [reply]; with a response that is not [ok]; or with
    an exception. *)
Inductive FetchResult : Type :=
| Replied (reply : string)
| Refused
| Failed.

(** The clock as [sendMessage] reads it: [Date.now()] and [new Date()] for
    the user's message, then for the assistant's. *)
Record Clock : Type := {
  sent_now : N;
  sent_date : N;
  answered_now : N;
  answered_date : N
}.

(** The body [sendMessage] posts to [/api/chat], as the server reads it. *)
Definition chat_request (s : State) : ChatRequest :=
  Build_ChatRequest
    (Some (inputMessage s))
    (Some {| profile_location := Some (location (profile s)) |})
    (Some "demo_user").

(** Lines 41-101.  [fetch] gives the outcome of the request. *)
Definition sendMessage `{StringTrim} `{StringCase} (clock : Clock)
    (fetch : ChatRequest -> FetchResult) (s : State) : State :=
  if String.eqb (trim (inputMessage s)) "" || isLoading s then s
  else
    let userMessage :=
      {| id := pretty (sent_now clock);
         text := inputMessage s;
         sender := "user";
         timestamp := sent_date clock |} in
    let assistantReply :=
      match fetch (chat_request s) with
      | Replied reply => reply
      | Refused | Failed => generateMockResponse (inputMessage s)
      end in
    let assistantMessage :=
      {| id := pretty (answered_now clock + 1)%N;
         text := assistantReply;
         sender := "assistant";
         timestamp := answered_date clock |} in
    {| messages := (messages s ++ [userMessage] ++ [assistantMessage])%list;
       inputMessage := "";
       isLoading := false;
       profile := profile s;
       showProfile := showProfile s;
       uploadedFile := uploadedFile s |}.

Definition quote : string := String (ascii_of_nat 34) EmptyString.

Definition upload_message (file_name : string) : string :=
  "📄 I've received your insurance document: "
  +:+ quote +:+ file_name +:+ quote +:+ nl
  +:+ nl
  +:+ "✅ **Processing Complete**"
  +:+ nl
  +:+ nl
  +:+ "**Insurance Summary**:"
  +:+ nl
  +:+ "• Plan: Health Plus Plan"
  +:+ nl
  +:+ "• Coverage: Emergency care, urgent care, primary care covered"
  +:+ nl
  +:+ "• Copay: $25 for primary care visits"
  +:+ nl
  +:+ "• Network: In-network providers recommended"
  +:+ nl
  +:+ nl
  +:+ "Your insurance information has been added to your profile. I can now provide more specific recommendations based on your coverage!".

(** Lines 121-149.  [picked] is [event.target.files?.[0]]; a file of
    another type is refused with an alert and changes nothing. *)
Definition handleFileUpload (now date : N) (picked : option File) (s : State)
  : State :=
  match picked with
  | None => s
  | Some file =>
      if negb (String.eqb (type file) "application/pdf") then s
      else
        let assistantMessage :=
          {| id := pretty now;
             text := upload_message (name file);
             sender := "assistant";
             timestamp := date |} in
        {| messages := (messages s ++ [assistantMessage])%list;
           inputMessage := inputMessage s;
           isLoading := isLoading s;
           profile :=
             {| location := location (profile s);
                insurance_summary :=
                  Some {| plan_name := "Health Plus Plan";
                          copay := "$25";
                          coverage := "Comprehensive" |} |};
           showProfile := showProfile s;
           uploadedFile := Some file |}
  end.

(** Lines 151-162. *)
Definition resetConversation (date : N) (s : State) : State :=
  {| messages := [greeting_message date];
     inputMessage := inputMessage s;
     isLoading := isLoading s;
     profile := {| location := ""; insurance_summary := None |};
     showProfile := showProfile s;
     uploadedFile := None |}.

(** Line 319: the [onChange] of the message input. *)
Definition typeInput (value : string) (s : State) : State :=
  {| messages := messages s;
     inputMessage := value;
     isLoading := isLoading s;
     profile := profile s;
     showProfile := showProfile s;
     uploadedFile := uploadedFile s |}.

(** Line 214: the [onChange] of the location input. *)
Definition typeLocation (value : string) (s : State) : State :=
  {| messages := messages s;
     inputMessage := inputMessage s;
     isLoading := isLoading s;
     profile :=
       {| location := value;
          insurance_summary := insurance_summary (profile s) |};
     showProfile := showProfile s;
     uploadedFile := uploadedFile s |}.

(** Line 181: the [onClick] of the profile button. *)
Definition toggleProfile (s : State) : State :=
  {| messages := messages s;
     inputMessage := inputMessage s;
     isLoading := isLoading s;
     profile := profile s;
     showProfile := negb (showProfile s);
     uploadedFile := uploadedFile s |}.

(** What the user can do, with what each handler reads from outside. *)
Inductive Event : Type :=
| TypeInput (value : string)
| ClickSend (clock : Clock) (outcome : FetchResult)
| PickFile (now date : N) (picked : option File)
| ClickReset (date : N)
| TypeLocation (value : string)
| ClickProfile.

Definition step `{StringTrim} `{StringCase} (s : State) (e : Event) : State :=
  match e with
  | TypeInput value => typeInput value s
  | ClickSend clock outcome => sendMessage clock (fun _ => outcome) s
  | PickFile now date picked => handleFileUpload now date picked s
  | ClickReset date => resetConversation date s
  | TypeLocation value => typeLocation value s
  | ClickProfile => toggleProfile s
  end.

(** The state after a sequence of events. *)
Definition run `{StringTrim} `{StringCase} (events : list Event) (s : State)
  : State :=
  fold_left step events s.

End App.

(** ** The client in front of the server *)

(** What the client's [fetch] gets from the chat route of a server that is
    up: [response.ok] holds for the statuses 200 to 299, and [data.reply]
    is the reply of the body.  (The chat route sends an [ok] status with a
    reply only, see [chat_ok_carries_reply].) *)
Definition fetch_outcome (response : Response) : App.FetchResult :=
  match body response with
  | ChatJson reply _ _ =>
      if (200 <=? status_code response)%nat
         && (status_code response <=? 299)%nat
      then App.Replied reply else App.Refused
  | _ => App.Refused
  end.

(** [sendMessage] against the server: the posted request is handled by the
    chat route at [server_now], on the store the server has. *)
Definition send_to_server `{App.StringTrim} `{StringCase} (clock : App.Clock)
    (server_now : N) (ui : App.State) (store : Store) : App.State * Store :=
  (App.sendMessage clock
     (fun req => fetch_outcome (chat server_now req store).1) ui,
   if String.eqb (App.trim (App.inputMessage ui)) "" || App.isLoading ui
   then store
   else (chat server_now (App.chat_request ui) store).2).

(** What each side has recorded: the sender and the text of each message. *)
Definition shown (ui : App.State) : list (string * string) :=
  map (fun m => (App.sender m, App.text m)) (App.messages ui).

Definition recorded (store : Store) (user : string) : list (string * string) :=
  map (fun m => (role m, content m)) (get_history store user).

(** A turn of a conversation: the user types [value] and sends it, with the
    server up; and a conversation of several turns. *)
Definition send_turn `{App.StringTrim} `{StringCase}
    (system : App.State * Store) (turn : string * App.Clock * N)
  : App.State * Store :=
  let '(value, clock, server_now) := turn in
  send_to_server clock server_now (App.typeInput value system.1) system.2.

Definition conversation `{App.StringTrim} `{StringCase}
    (turns : list (string * App.Clock * N)) (system : App.State * Store)
  : App.State * Store :=
  fold_left send_turn turns system.

(** What every handler of the client keeps true of its state. *)
Definition client_ok `{App.StringTrim} (s : App.State) : Prop :=
  App.isLoading s = false
  /\ (exists date rest, App.messages s = App.greeting_message date :: rest)
  /\ Forall (fun m => App.sender m = "assistant"
                      \/ (App.sender m = "user"
                          /\ App.trim (App.text m) <> ""))
       (App.messages s)
  /\ match App.uploadedFile s with
     | Some file =>
         App.type file = "application/pdf"
         /\ App.insurance_summary (App.profile s)
            = Some {| App.plan_name := "Health Plus Plan";
                      App.copay := "$25";
                      App.coverage := "Comprehensive" |}
     | None => App.insurance_summary (App.profile s) = None
     end.

(** * Properties *)

(** Closed decidable statements (membership in a literal list, a [Forall]
    over one) are settled by evaluating their decision procedure. *)
Ltac by_evaluation := apply (bool_decide_unpack _); by vm_compute.

(** ** Substring search *)

Lemma prefix_true_iff (p s : string) :
  String.prefix p s = true <-> exists post, s = p +:+ post.
Proof.
  revert s. induction p as [|c p IH]; intros s.
  - split; [intros _; by exists s | intros _; by destruct s].
  - destruct s as [|d s]; simpl.
    + split; [done | intros [post Hpost]; discriminate].
    + destruct (Ascii.ascii_dec c d) as [->|Hne].
      * rewrite IH. split; intros [post Hpost]; exists post.
        -- by rewrite Hpost.
        -- by injection Hpost.
      * split; [done | intros [post Hpost]; injection Hpost; congruence].
Qed.

(** [includes] is substring search: [sub] occurs in [s] exactly when [s]
    splits around a copy of [sub]. *)
Lemma includes_true_iff (s sub : string) :
  includes s sub = true <-> exists pre post, s = pre +:+ sub +:+ post.
Proof.
  induction s as [|c s IH]; cbn [includes].
  - rewrite orb_false_r, prefix_true_iff. split.
    + intros [post Hpost]. by exists "", post.
    + intros [pre [post Hs]]. destruct pre; [by exists post | discriminate].
  - rewrite orb_true_iff, prefix_true_iff, IH. split.
    + intros [[post Hpost] | [pre [post Hs]]].
      * by exists "", post.
      * exists (String c pre), post. simpl. by rewrite Hs.
    + intros [pre [post Hs]]. destruct pre as [|d pre]; simpl in Hs.
      * left. by exists post.
      * right. exists pre, post. by injection Hs.
Qed.

Lemma append_assoc (a b c : string) : (a +:+ b) +:+ c = a +:+ b +:+ c.
Proof.
  induction a as [|x a IH]; [reflexivity|].
  change (String x ((a +:+ b) +:+ c) = String x (a +:+ b +:+ c)).
  by rewrite IH.
Qed.

Lemma includes_infix (pre sub post : string) :
  includes (pre +:+ sub +:+ post) sub = true.
Proof. apply includes_true_iff. by exists pre, post. Qed.

Lemma some_included_true_iff (s : string) (keywords : list string) :
  some_included s keywords = true <->
  exists keyword, keyword ∈ keywords /\ includes s keyword = true.
Proof.
  unfold some_included. rewrite existsb_exists.
  split; intros [k [Hk Hin]]; exists k; split; try done;
    by apply list_elem_of_In.
Qed.

Lemma some_included_false_iff (s : string) (keywords : list string) :
  some_included s keywords = false <->
  forall keyword, keyword ∈ keywords -> includes s keyword = false.
Proof.
  unfold some_included. rewrite <- not_true_iff_false, existsb_exists. split.
  - intros Hno k Hk. apply not_true_iff_false. intros Hin.
    apply Hno. exists k. split; [by apply list_elem_of_In | done].
  - intros Hall [k [Hk Hin]]. apply list_elem_of_In in Hk.
    rewrite (Hall k Hk) in Hin. discriminate.
Qed.

(** ** Triage classifier *)

Lemma tier_keywords_all_keywords (level keyword : string) :
  keyword ∈ tier_keywords level -> keyword ∈ all_keywords.
Proof.
  unfold tier_keywords.
  destruct (find _ _) as [[l keywords]|] eqn:Hfind; [|by intros ?%elem_of_nil].
  apply find_some in Hfind as [Hentry _]. intros Hk.
  apply list_elem_of_In, in_concat. exists keywords.
  split; [|by apply list_elem_of_In].
  apply in_map_iff. by exists (l, keywords).
Qed.

Section Triage.
Context `{StringCase}.

(** The loop, unrolled on the four entries of [urgencyKeywords]. *)
Lemma mockTriageSymptoms_unfold (text : string) :
  mockTriageSymptoms text =
  let lower := toLowerCase text in
  if tier_hit lower "emergency" then matched_result "emergency"
  else if tier_hit lower "high" then matched_result "high"
  else if tier_hit lower "medium" then matched_result "medium"
  else if tier_hit lower "low" then matched_result "low"
  else default_result.
Proof.
  unfold mockTriageSymptoms. cbv zeta.
  set (lower := toLowerCase text).
  change (triage_entries lower urgencyKeywords) with
    (if tier_hit lower "emergency" then Some (matched_result "emergency")
     else if tier_hit lower "high" then Some (matched_result "high")
     else if tier_hit lower "medium" then Some (matched_result "medium")
     else if tier_hit lower "low" then Some (matched_result "low")
     else None).
  by repeat destruct (tier_hit lower _).
Qed.

Lemma triage_level_is_tier (text : string) :
  urgency_level (mockTriageSymptoms text) ∈ tiers.
Proof.
  rewrite mockTriageSymptoms_unfold. cbv zeta. unfold tiers. simpl.
  repeat match goal with
         | |- context [if ?b then _ else _] => destruct b
         end; simpl; rewrite !elem_of_cons; tauto.
Qed.

(** C1.  A text whose lower-cased form contains an emergency keyword is
    classified [emergency], whatever keywords of the other tiers it
    contains; and in general the tiers are tried in the order emergency,
    high, medium, low, the first tier with a keyword in the lower-cased text
    giving the result. *)
Theorem classify_emergency_first (text : string) :
  let hit := tier_hit (toLowerCase text) in
  let level := urgency_level (mockTriageSymptoms text) in
  (forall keyword,
      keyword ∈ tier_keywords "emergency" ->
      includes (toLowerCase text) keyword = true ->
      level = "emergency") /\
  (hit "emergency" = true -> level = "emergency") /\
  (hit "emergency" = false -> hit "high" = true -> level = "high") /\
  (hit "emergency" = false -> hit "high" = false -> hit "medium" = true ->
   level = "medium") /\
  (hit "emergency" = false -> hit "high" = false -> hit "medium" = false ->
   hit "low" = true -> level = "low").
Proof.
  intros hit level. subst hit level.
  rewrite mockTriageSymptoms_unfold. cbv zeta.
  split; [|repeat split].
  - intros keyword Hk Hin.
    assert (tier_hit (toLowerCase text) "emergency" = true) as ->; [|done].
    apply some_included_true_iff. by exists keyword.
  - by intros ->.
  - by intros -> ->.
  - by intros -> -> ->.
  - by intros -> -> -> ->.
Qed.

(** C2.  Every text is classified into one of the four tiers, and a text
    whose lower-cased form contains no keyword of any tier gets the tier
    [low] with the generic reasoning and the low tier's recommendations. *)
Theorem classify_total_default_low (text : string) :
  urgency_level (mockTriageSymptoms text) ∈ ["emergency"; "high"; "medium"; "low"]
  /\ ((forall keyword, keyword ∈ all_keywords ->
         includes (toLowerCase text) keyword = false) ->
      mockTriageSymptoms text =
      {| urgency_level := "low";
         reasoning := "Symptoms appear to be minor and manageable.";
         recommendations :=
           ["Monitor symptoms"; "Rest and self-care";
            "Contact doctor if symptoms persist"] |}).
Proof.
  split; [exact (triage_level_is_tier text)|].
  rewrite mockTriageSymptoms_unfold. cbv zeta.
  intros Hnone.
  assert (forall level, tier_hit (toLowerCase text) level = false) as Hmiss.
  { intros level. apply some_included_false_iff.
    intros keyword Hk. by eapply Hnone, tier_keywords_all_keywords. }
  by rewrite !Hmiss.
Qed.

End Triage.

(** A text with keywords of the low tier and, in capitals, one of the
    emergency tier. *)
Lemma classify_mixed_tiers_emergency :
  let text := "Mild headache and fatigue, now CHEST PAIN" in
  "chest pain" ∈ tier_keywords "emergency"
  /\ includes (toLowerCase text) "chest pain" = true
  /\ tier_hit (toLowerCase text) "low" = true
  /\ urgency_level (mockTriageSymptoms text) = "emergency".
Proof.
  cbv zeta.
  assert ("chest pain" ∈ tier_keywords "emergency") as Hkeyword.
  { by_evaluation. }
  split; [exact Hkeyword|]. split; [reflexivity|]. split; [reflexivity|].
  apply (classify_emergency_first
           "Mild headache and fatigue, now CHEST PAIN" : _ /\ _)
    with (keyword := "chest pain"); [exact Hkeyword | reflexivity].
Defined.

(** A text with no keyword. *)
Lemma classify_no_keyword_low :
  let text := "I feel fine" in
  Forall (fun keyword => includes (toLowerCase text) keyword = false)
    all_keywords
  /\ mockTriageSymptoms text = default_result.
Proof.
  cbv zeta.
  assert (Forall (fun keyword =>
                    includes (toLowerCase "I feel fine") keyword = false)
            all_keywords) as Hnone.
  { by_evaluation. }
  split; [exact Hnone|].
  apply (classify_total_default_low "I feel fine").
  by apply Forall_forall.
Defined.

(** ** Clinic directory *)

(** For each of the four tiers the directory holds one clinic, and its
    address is a street followed by [", "] and the location. *)
Lemma find_clinic_valid_tier (loc tier : string) :
  tier ∈ tiers ->
  exists clinic street,
    clinics (mockFindClinic loc tier) = Own [clinic]
    /\ address clinic = street +:+ ", " +:+ loc.
Proof.
  unfold tiers. simpl. rewrite !elem_of_cons, elem_of_nil.
  intros [->|[->|[->|[->|[]]]]].
  - eexists _, "123 Main St". split; vm_compute; reflexivity.
  - eexists _, "456 Oak Ave". split; vm_compute; reflexivity.
  - eexists _, "789 Pine St". split; vm_compute; reflexivity.
  - eexists _, "321 Elm St". split; vm_compute; reflexivity.
Qed.

(** ** Reply composer *)

Section Composer.
Context `{StringCase}.

(** The lookups of the composer never throw: both urgency arguments it
    passes to [mockFindClinic] are tiers. *)
Lemma with_clinics_tier (loc tier : string) (render : list Clinic -> string) :
  tier ∈ tiers ->
  exists clinic,
    clinics (mockFindClinic loc tier) = Own [clinic]
    /\ with_clinics (mockFindClinic loc tier) render = Returned (render [clinic]).
Proof.
  intros Htier.
  destruct (find_clinic_valid_tier loc tier Htier) as (clinic & _ & Hc & _).
  exists clinic. split; [done|]. unfold with_clinics. by rewrite Hc.
Qed.

(** The conditions of [compose_reply], as tests of keyword lists. *)
Lemma some_included_2 (s a b : string) :
  some_included s [a; b] = includes s a || includes s b.
Proof. unfold some_included. simpl. by rewrite orb_false_r. Qed.

Lemma some_included_3 (s a b c : string) :
  some_included s [a; b; c] = includes s a || includes s b || includes s c.
Proof. unfold some_included. simpl. by rewrite orb_false_r, orb_assoc. Qed.

Lemma compose_reply_unfold (msg : string) (p : Profile) :
  compose_reply msg p =
  let lower := toLowerCase msg in
  if some_included lower ["hello"; "hi"] then Returned greeting_reply
  else if some_included lower ["pain"; "hurt"; "ache"] then
    with_clinics
      (mockFindClinic (location_of p) (urgency_level (mockTriageSymptoms msg)))
      (pain_reply (mockTriageSymptoms msg) (location_of p))
  else if some_included lower ["fever"; "temperature"] then
    Returned (fever_reply (mockTriageSymptoms msg))
  else if some_included lower ["insurance"; "coverage"] then
    Returned insurance_reply
  else if some_included lower ["clinic"; "doctor"; "appointment"] then
    with_clinics (mockFindClinic (location_of p) "medium")
      (clinic_reply (location_of p))
  else Returned fallback_reply.
Proof.
  cbv zeta. by rewrite !some_included_2, !some_included_3.
Qed.

(** C4.  Every message gets a reply, and it is the reply of the first of
    the five keyword groups, in the order greeting, pain, fever, insurance,
    clinic, that has a keyword in the lower-cased message; with no such
    group it is the clarifying-question template. *)
Theorem compose_reply_dispatch (msg : string) (p : Profile) :
  let mentions := some_included (toLowerCase msg) in
  let greeting := mentions ["hello"; "hi"] in
  let pain := mentions ["pain"; "hurt"; "ache"] in
  let fever := mentions ["fever"; "temperature"] in
  let insurance := mentions ["insurance"; "coverage"] in
  let clinic := mentions ["clinic"; "doctor"; "appointment"] in
  let triage := mockTriageSymptoms msg in
  let loc := location_of p in
  exists reply,
    compose_reply msg p = Returned reply
    /\ (greeting = true -> reply = greeting_reply)
    /\ (greeting = false -> pain = true ->
        exists found,
          clinics (mockFindClinic loc (urgency_level triage)) = Own [found]
          /\ reply = pain_reply triage loc [found])
    /\ (greeting = false -> pain = false -> fever = true ->
        reply = fever_reply triage)
    /\ (greeting = false -> pain = false -> fever = false ->
        insurance = true -> reply = insurance_reply)
    /\ (greeting = false -> pain = false -> fever = false ->
        insurance = false -> clinic = true ->
        exists found,
          clinics (mockFindClinic loc "medium") = Own [found]
          /\ reply = clinic_reply loc [found])
    /\ (greeting = false -> pain = false -> fever = false ->
        insurance = false -> clinic = false -> reply = fallback_reply).
Proof.
  cbv zeta. rewrite compose_reply_unfold. cbv zeta.
  destruct (with_clinics_tier (location_of p)
              (urgency_level (mockTriageSymptoms msg))
              (pain_reply (mockTriageSymptoms msg) (location_of p))
              (triage_level_is_tier msg)) as (c1 & Hc1 & Hw1).
  destruct (with_clinics_tier (location_of p) "medium"
              (clinic_reply (location_of p))) as (c2 & Hc2 & Hw2).
  { unfold tiers. simpl. set_solver. }
  rewrite Hw1, Hw2.
  destruct (some_included _ ["hello"; "hi"]);
    [eexists; split; [done|]; repeat split; try done; by eauto|].
  destruct (some_included _ ["pain"; "hurt"; "ache"]);
    [eexists; split; [done|]; repeat split; try done; by eauto|].
  destruct (some_included _ ["fever"; "temperature"]);
    [eexists; split; [done|]; repeat split; try done; by eauto|].
  destruct (some_included _ ["insurance"; "coverage"]);
    [eexists; split; [done|]; repeat split; try done; by eauto|].
  destruct (some_included _ ["clinic"; "doctor"; "appointment"]);
    eexists; (split; [done|]); repeat split; try done; by eauto.
Qed.

Lemma pain_reply_closing (triage : TriageResult) (location : string)
    (found : list Clinic) :
  pain_reply triage location found =
  pain_reply_body triage location found
  +:+ (if String.eqb (urgency_level triage) "emergency"
       then warning_sentence else disclaimer_sentence).
Proof.
  unfold pain_reply, pain_reply_body. by rewrite !append_assoc.
Qed.

(** C3, as amended.  A message that reaches the pain branch (its
    lower-cased text has no greeting keyword and has a pain keyword) is
    answered with the pain template, which states the tier of the triage;
    when that tier is [emergency] the template closes with the emergency
    warning sentence, and with the virtual-assistant disclaimer otherwise. *)
Theorem pain_reply_emergency_warning (msg : string) (p : Profile) :
  let mentions := some_included (toLowerCase msg) in
  let level := urgency_level (mockTriageSymptoms msg) in
  mentions ["hello"; "hi"] = false ->
  mentions ["pain"; "hurt"; "ache"] = true ->
  exists before closing,
    compose_reply msg p = Returned (before +:+ closing)
    /\ includes before ("I've assessed this as " +:+ level +:+ " urgency.")
       = true
    /\ (level = "emergency" -> closing = warning_sentence)
    /\ (level <> "emergency" -> closing = disclaimer_sentence).
Proof.
  cbv zeta. intros Hgreeting Hpain.
  rewrite compose_reply_unfold. cbv zeta. rewrite Hgreeting, Hpain.
  destruct (with_clinics_tier (location_of p)
              (urgency_level (mockTriageSymptoms msg))
              (pain_reply (mockTriageSymptoms msg) (location_of p))
              (triage_level_is_tier msg)) as (found & _ & ->).
  rewrite pain_reply_closing.
  eexists _, _. split; [reflexivity|]. split.
  - unfold pain_reply_body.
    apply includes_true_iff.
    exists "I understand you're experiencing pain. Based on your symptoms, ".
    eexists. rewrite !append_assoc. reflexivity.
  - split.
    + by intros ->.
    + intros Hlevel. apply String.eqb_neq in Hlevel. by rewrite Hlevel.
Qed.

End Composer.

(** A message with a greeting keyword and a pain keyword is greeted. *)
Lemma greeting_comes_first :
  let msg := "Hi, my head hurts" in
  let p := {| profile_location := None |} in
  some_included (toLowerCase msg) ["hello"; "hi"] = true
  /\ some_included (toLowerCase msg) ["pain"; "hurt"; "ache"] = true
  /\ compose_reply msg p = Returned greeting_reply.
Proof.
  cbv zeta. split; [reflexivity|]. split; [reflexivity|].
  destruct (compose_reply_dispatch "Hi, my head hurts"
              {| profile_location := None |})
    as (reply & Hreply & Hgreeting & _).
  rewrite Hreply. f_equal. apply Hgreeting. reflexivity.
Defined.

(** C3, as stated, fails: this message is triaged [emergency], and it is
    answered with the clarifying-question template, which neither holds the
    warning sentence nor states the tier. *)
Lemma heart_attack_reply_has_no_warning :
  let msg := "I am having a heart attack" in
  urgency_level (mockTriageSymptoms msg) = "emergency"
  /\ compose_reply msg {| profile_location := None |} = Returned fallback_reply
  /\ includes fallback_reply warning_sentence = false
  /\ includes fallback_reply "emergency urgency" = false.
Proof. cbv zeta. repeat split; vm_compute; reflexivity. Qed.

(** Every message is answered: the composer does not throw. *)
Lemma compose_reply_returns `{StringCase} (msg : string) (p : Profile) :
  exists reply, compose_reply msg p = Returned reply.
Proof.
  rewrite compose_reply_unfold. cbv zeta.
  destruct (with_clinics_tier (location_of p)
              (urgency_level (mockTriageSymptoms msg))
              (pain_reply (mockTriageSymptoms msg) (location_of p))
              (triage_level_is_tier msg)) as (c1 & _ & ->).
  destruct (with_clinics_tier (location_of p) "medium"
              (clinic_reply (location_of p))) as (c2 & _ & ->).
  { unfold tiers. simpl. set_solver. }
  repeat (destruct (some_included _ _); [by eexists|]). by eexists.
Qed.

(** ** Property reads *)

Lemma get_property_own {A : Type} (obj : gmap string A) (key : string)
    (value : A) :
  obj !! key = Some value -> get_property obj key = Own value.
Proof. unfold get_property. by intros ->. Qed.

Lemma get_property_undefined {A : Type} (obj : gmap string A) (key : string) :
  obj !! key = None -> key ∉ Object_prototype ->
  get_property obj key = Undefined.
Proof.
  unfold get_property. intros -> Hname. by rewrite bool_decide_eq_false_2.
Qed.

Lemma get_property_inherited {A : Type} (obj : gmap string A) (key : string) :
  obj !! key = None -> key ∈ Object_prototype ->
  get_property obj key = Inherited key.
Proof.
  unfold get_property. intros -> Hname. by rewrite bool_decide_eq_true_2.
Qed.

(** ** Conversation store *)

Section StoreLemmas.
Implicit Types (store : Store) (user other : string) (m : Message).

(** Creating a session on demand changes no history. *)
Lemma init_session_history store user other :
  get_history (init_session store user) other = get_history store other.
Proof.
  unfold init_session, get_property, get_history.
  destruct (store !! user) as [messages|] eqn:Huser; [done|].
  case_bool_decide; [done|].
  destruct (decide (user = other)) as [<-|Hne].
  - by rewrite lookup_insert_eq, Huser.
  - by rewrite lookup_insert_ne.
Qed.

(** A [push] that returns has put [m] at the end of the user's history and
    has left every other history as it was. *)
Lemma push_history store store' user other m :
  push store user m = Some store' ->
  get_history store' other =
  if decide (user = other) then (get_history store user ++ [m])%list
  else get_history store other.
Proof.
  unfold push, get_property, get_history.
  destruct (store !! user) as [messages|] eqn:Huser.
  - intros [= <-]. destruct (decide (user = other)) as [<-|Hne].
    + by rewrite lookup_insert_eq.
    + by rewrite lookup_insert_ne.
  - by case_bool_decide.
Qed.

(** On a user name that plain objects do not inherit, [append] returns. *)
Lemma append_returns store user m :
  user ∉ Object_prototype ->
  append store user m
  = Some (<[user := (get_history store user ++ [m])%list]> store).
Proof.
  intros Hname. unfold append, init_session, get_history.
  destruct (store !! user) as [messages|] eqn:Huser.
  - rewrite (get_property_own _ _ _ Huser). unfold push.
    by rewrite (get_property_own _ _ _ Huser).
  - rewrite (get_property_undefined _ _ Huser Hname). unfold push.
    rewrite (get_property_own _ _ [] (lookup_insert_eq _ _ _)).
    by rewrite insert_insert_eq.
Qed.

(** On an inherited name with no session, [append] throws. *)
Lemma append_throws store user m :
  user ∈ Object_prototype -> store !! user = None ->
  append store user m = None.
Proof.
  intros Hname Huser. unfold append, init_session, push.
  by rewrite !(get_property_inherited _ _ Huser Hname).
Qed.

Lemma get_history_insert store user other messages :
  get_history (<[user := messages]> store) other =
  if decide (user = other) then messages else get_history store other.
Proof.
  unfold get_history. destruct (decide (user = other)) as [<-|Hne].
  - by rewrite lookup_insert_eq.
  - by rewrite lookup_insert_ne.
Qed.

(** X3.  Appending [a], [b] and [c] in turn puts them, in that order, at the end
    of the user's history, for every user name that plain objects do not
    inherit; the histories of the other users stay as they were. *)
Lemma append_order store user (a b c : Message) :
  user ∉ Object_prototype ->
  exists s1 s2 s3,
    append store user a = Some s1
    /\ append s1 user b = Some s2
    /\ append s2 user c = Some s3
    /\ get_history s3 user = (get_history store user ++ [a; b; c])%list
    /\ (forall other, other <> user ->
        get_history s3 other = get_history store other).
Proof.
  intros Hname. eexists _, _, _.
  split; [by apply append_returns|].
  split; [by apply append_returns|].
  split; [by apply append_returns|].
  split.
  - rewrite !get_history_insert, !decide_True by done.
    by rewrite <- !(assoc_L (++)).
  - intros other Hne. by rewrite !get_history_insert, !decide_False.
Qed.

End StoreLemmas.

(** ** Request handlers *)

Section Handlers.
Context `{StringCase}.
Implicit Types (store : Store) (req : ChatRequest) (now : N).

(** The chat handler on a message that is not empty and a user name that
    plain objects do not inherit: it answers 200 with the composed reply,
    and the user's history gains the message and the reply, in that order. *)
Lemma chat_success now req store (text : string) :
  let user := default "default" (user_id req) in
  let p := default {| profile_location := None |} (profile req) in
  message req = Some text -> text <> "" -> user ∉ Object_prototype ->
  exists reply,
    compose_reply text p = Returned reply
    /\ chat now req store =
       (json (ChatJson reply "success"
                ("thread_" +:+ user +:+ "_" +:+ pretty now)),
        <[user := (get_history store user
                   ++ [ {| role := "user"; content := text |};
                        {| role := "assistant"; content := reply |} ])%list]>
          store).
Proof.
  cbv zeta. intros Hmsg Htext Hname.
  destruct (compose_reply_returns text
              (default {| profile_location := None |} (profile req)))
    as [reply Hreply].
  exists reply. split; [done|].
  unfold chat, chat_try. rewrite Hmsg.
  apply String.eqb_neq in Htext. rewrite Htext.
  pose proof (append_returns store (default "default" (user_id req))
                {| role := "user"; content := text |} Hname) as Hpush.
  unfold append in Hpush. rewrite Hpush, Hreply.
  pose proof (append_returns
                (<[default "default" (user_id req) :=
                     (get_history store (default "default" (user_id req))
                      ++ [ {| role := "user"; content := text |} ])%list]>
                   store)
                (default "default" (user_id req))
                {| role := "assistant"; content := reply |} Hname) as Hpush2.
  unfold append, init_session in Hpush2.
  rewrite (get_property_own _ _ _ (lookup_insert_eq _ _ _)) in Hpush2.
  rewrite Hpush2. f_equal.
  rewrite get_history_insert, decide_True, insert_insert_eq by done.
  by rewrite <- (assoc_L (++)).
Qed.

(** Whatever the request, the chat handler removes nothing: each user's
    history before the request is a prefix of the history after it. *)
Lemma chat_keeps_history now req store (user : string) :
  get_history store user `prefix_of` get_history (chat now req store).2 user.
Proof.
  unfold chat, chat_try.
  destruct (message req) as [text|]; [|done].
  destruct (String.eqb text ""); [done|].
  set (u := default "default" (user_id req)).
  assert (forall s' m, push (init_session store u) u m = Some s' ->
            get_history store user `prefix_of` get_history s' user) as Hstep.
  { intros s' m Hpush. rewrite (push_history _ _ _ user _ Hpush).
    rewrite !init_session_history.
    destruct (decide (u = user)) as [->|]; [by apply prefix_app_r|done]. }
  destruct (push (init_session store u) u _) as [store2|] eqn:Hpush1; simpl.
  2:{ by rewrite init_session_history. }
  destruct (compose_reply _ _) as [reply|e]; simpl; [|by eapply Hstep].
  destruct (push store2 u _) as [store3|] eqn:Hpush2; simpl;
    [|by eapply Hstep].
  etrans; [by eapply Hstep|].
  rewrite (push_history _ _ _ user _ Hpush2).
  destruct (decide (u = user)) as [->|]; [by apply prefix_app_r|done].
Qed.

(** X4.  The only route that removes messages is the reset route: after a
    request to any other route, each user's history before the request is
    a prefix of the history after it. *)
Lemma handle_keeps_history (r : Request) store (user : string) :
  (forall uid, r <> PostResetConversation uid) ->
  get_history store user `prefix_of` get_history (handle r store).2 user.
Proof.
  intros Hroute. destruct r as [|now req|file|uid]; simpl; try done.
  - apply chat_keeps_history.
  - by destruct (Hroute uid).
Qed.

(** C8.  A chat request with no [message] is answered 400 with the error
    [Message is required]; a request whose message is not empty is not: the
    handler answers it with another status. *)
Theorem chat_requires_message now (p : option Profile) (uid : option string)
    store :
  (chat now {| message := None; profile := p; user_id := uid |} store).1
  = {| status_code := 400; body := ErrorJson "Message is required" |}
  /\ forall text,
       text <> "" ->
       let response :=
         (chat now {| message := Some text; profile := p; user_id := uid |}
            store).1 in
       status_code response <> 400
       /\ body response <> ErrorJson "Message is required".
Proof.
  split; [reflexivity|].
  intros text Htext. cbv zeta. unfold chat, chat_try.
  cbn [message profile user_id].
  apply String.eqb_neq in Htext. rewrite Htext.
  destruct (push (init_session _ _) _ _) as [store2|];
    [|split; intros [=]].
  destruct (compose_reply _ _) as [reply|e]; [|split; intros [=]].
  destruct (push store2 _ _); split; intros [=].
Qed.

(** C10.  A chat request whose [message] is present and empty is answered
    400 with the error [Message is required], and the store after it is the
    store before it: no session is created and no history changes. *)
Theorem chat_empty_message_is_atomic now req store :
  message req = Some "" ->
  chat now req store
  = ({| status_code := 400; body := ErrorJson "Message is required" |},
     store)
  /\ (forall user,
        (chat now req store).2 !! user = store !! user
        /\ get_history (chat now req store).2 user = get_history store user).
Proof.
  intros Hmessage.
  assert (chat now req store = (message_required, store)) as Hchat.
  { unfold chat, chat_try. by rewrite Hmessage. }
  split; [exact Hchat|]. intros user. by rewrite Hchat.
Qed.

End Handlers.

(** A greeting is not refused. *)
Lemma chat_hello_is_not_refused :
  "hello" <> ""
  /\ status_code
       (chat 1700000000000
          {| message := Some "hello"; profile := None; user_id := None |}
          ∅).1 <> 400.
Proof.
  split; [discriminate|].
  apply (chat_requires_message 1700000000000 None None ∅). discriminate.
Defined.

(** An empty message of a user who has not written yet. *)
Lemma chat_empty_message_keeps_store :
  let req := {| message := Some ""; profile := None; user_id := Some "bob" |} in
  message req = Some ""
  /\ chat 1700000000000 req ∅
     = ({| status_code := 400; body := ErrorJson "Message is required" |}, ∅).
Proof.
  cbv zeta. split; [reflexivity|].
  apply (chat_empty_message_is_atomic 1700000000000
           {| message := Some ""; profile := None; user_id := Some "bob" |} ∅).
  reflexivity.
Defined.

(** C7.  Resetting always answers success, also for a user with no session,
    whose reset leaves the store as it is; a second reset changes nothing
    more; and after a reset the user's history is empty. *)
Theorem reset_idempotent (store : Store) (user : string) :
  (reset_conversation (Some user) store).1
  = {| status_code := 200;
       body := StatusJson "success" "Conversation reset successfully" |}
  /\ (store !! user = None -> reset store user = store)
  /\ reset (reset store user) user = reset store user
  /\ get_history (reset store user) user = [].
Proof.
  assert (reset store user = delete user store) as Hreset.
  { unfold reset, reset_conversation, delete_property, get_property. simpl.
    destruct (store !! user) eqn:Huser; [done|].
    case_bool_decide; [done|]. by rewrite delete_id. }
  assert (forall s, s !! user = None -> reset s user = s) as Habsent.
  { intros s Hs. unfold reset, reset_conversation, delete_property,
      get_property. simpl. rewrite Hs.
    case_bool_decide; [|done]. by rewrite delete_id. }
  split; [reflexivity|]. split; [apply Habsent|]. split.
  - apply Habsent. rewrite Hreset. apply lookup_delete_eq.
  - rewrite Hreset. unfold get_history. by rewrite lookup_delete_eq.
Qed.

(** Resetting a user who never wrote, in a store that holds no session. *)
Lemma reset_no_session :
  (∅ : Store) !! "alice" = None
  /\ reset ∅ "alice" = ∅
  /\ get_history (reset ∅ "alice") "alice" = [].
Proof.
  split; [reflexivity|]. split.
  - apply (reset_idempotent ∅ "alice"). reflexivity.
  - apply (reset_idempotent ∅ "alice").
Defined.

(** C9.  The summary is the one fixed record, with [filename] set to the
    argument; and an uploaded file of type [application/pdf] is answered
    with that summary, named after the file, whatever the file holds. *)
Theorem insurance_summary_is_fixed (filename : string) :
  mockInsuranceCheck filename
  = {| plan_name := "Health Plus Premium Plan";
       provider := "Blue Cross Blue Shield";
       member_id := "ABC123456789";
       group_number := "GRP001";
       coverage_details :=
         [ ("primary_care", "$25 copay");
           ("specialist", "$50 copay");
           ("urgent_care", "$75 copay");
           ("emergency_room", "$300 copay");
           ("prescription_drugs", "$10/$30/$60 copay") ];
       key_benefits :=
         [ "Preventive care covered 100%";
           "Annual deductible: $1,500";
           "Out-of-pocket maximum: $6,000";
           "Network coverage nationwide" ];
       filename := filename |}
  /\ forall data : string,
       upload (Some {| originalname := filename;
                       mimetype := "application/pdf";
                       file_content := data |})
       = {| status_code := 200;
            body := UploadJson "success" filename
                      (mockInsuranceCheck filename)
                      "Insurance document processed successfully" |}.
Proof. split; [reflexivity | intros data; reflexivity]. Qed.

(** The request of the specification's example, on a fresh store: the
    message reaches the pain branch with an emergency triage, and the reply
    of the handler closes with the warning sentence. *)
Lemma chest_pain_reply_has_warning :
  let msg := "I have chest pain" in
  let req := {| message := Some msg; profile := None; user_id := None |} in
  some_included (toLowerCase msg) ["hello"; "hi"] = false
  /\ some_included (toLowerCase msg) ["pain"; "hurt"; "ache"] = true
  /\ urgency_level (mockTriageSymptoms msg) = "emergency"
  /\ exists before,
       (chat 1700000000000 req ∅).1
       = json (ChatJson (before +:+ warning_sentence) "success"
                 "thread_default_1700000000000")
       /\ includes before "I've assessed this as emergency urgency." = true.
Proof.
  cbv zeta.
  split; [reflexivity|]. split; [reflexivity|]. split; [reflexivity|].
  destruct (pain_reply_emergency_warning "I have chest pain"
              {| profile_location := None |})
    as (before & closing & Hreply & Hstates & Hwarn & _);
    [reflexivity | reflexivity |].
  rewrite (Hwarn eq_refl) in Hreply.
  exists before. split; [|exact Hstates].
  destruct (chat_success 1700000000000
              {| message := Some "I have chest pain"; profile := None;
                 user_id := None |} ∅ "I have chest pain")
    as (reply & Hcomposed & Hchat);
    [reflexivity | discriminate | by_evaluation |].
  simpl in Hcomposed. rewrite Hreply in Hcomposed.
  injection Hcomposed as <-. by rewrite Hchat.
Defined.

(** ** Names inherited from [Object.prototype] *)

(** C5 at an urgency that is no tier and that plain objects inherit: the
    lookup [clinics[urgency]] finds the inherited member, which is truthy,
    and the low tier's list is not returned. *)
Theorem find_clinic_inherited_urgency (loc : string) :
  clinics (mockFindClinic loc "toString") = Inherited "toString"
  /\ clinics (mockFindClinic loc "toString")
     <> clinics (mockFindClinic loc "low").
Proof. split; [by vm_compute | by vm_compute]. Qed.

(** The same holds of each of the inherited names. *)
Lemma find_clinic_inherited_names (loc urgency : string) :
  urgency ∈ Object_prototype ->
  clinics (mockFindClinic loc urgency) = Inherited urgency.
Proof.
  unfold Object_prototype. rewrite !elem_of_cons, elem_of_nil.
  intros Hname.
  repeat (destruct Hname as [->|Hname]; [by vm_compute|]). done.
Qed.

(** X2.  An urgency that is neither a tier nor an inherited name gets the
    low tier's clinic. *)
Lemma find_clinic_unknown_urgency (loc urgency : string) :
  urgency ∉ tiers -> urgency ∉ Object_prototype ->
  clinics (mockFindClinic loc urgency) = clinics (mockFindClinic loc "low")
  /\ exists clinic,
       clinics (mockFindClinic loc urgency) = Own [clinic]
       /\ name clinic = "Community Health Clinic"
       /\ address clinic = "321 Elm St, " +:+ loc.
Proof.
  intros Htier Hname.
  assert (clinics (mockFindClinic loc urgency)
          = clinics (mockFindClinic loc "low")) as Hlow.
  { unfold mockFindClinic. simpl.
    rewrite (get_property_undefined (clinic_table loc) urgency); [done| |done].
    apply not_elem_of_list_to_map_1. exact Htier. }
  split; [exact Hlow|]. rewrite Hlow. eexists. by vm_compute.
Qed.

(** C6 at a user name that plain objects inherit: the store has no session
    under the name, the lookup finds the inherited member, no session is
    created, and [push] throws.  Each chat request of the user is answered
    500 and the history stays empty. *)
Theorem chat_inherited_user_name (now : N) :
  let a := {| role := "user"; content := "A" |} in
  let req text :=
    {| message := Some text; profile := None;
       user_id := Some "constructor" |} in
  append ∅ "constructor" a = None
  /\ chat now (req "A") ∅ = (internal_server_error, ∅)
  /\ get_history
       (chat now (req "C") (chat now (req "B") (chat now (req "A") ∅).2).2).2
       "constructor" = [].
Proof. cbv zeta. split; [|split]; by vm_compute. Qed.

(** ** ASCII text *)

Lemma lower_string_app (a b : string) :
  lower_string (a +:+ b) = lower_string a +:+ lower_string b.
Proof.
  induction a as [|c a IH]; [reflexivity|].
  change (String (lower_ascii c) (lower_string (a +:+ b))
          = String (lower_ascii c) (lower_string a +:+ lower_string b)).
  by rewrite IH.
Qed.

(** A keyword that is its own lower case and occurs in a text occurs in the
    lower-cased text. *)
Lemma includes_lower_string (text keyword : string) :
  lower_string keyword = keyword ->
  includes text keyword = true ->
  includes (lower_string text) keyword = true.
Proof.
  intros Hlower (pre & post & ->)%includes_true_iff.
  rewrite !lower_string_app, Hlower. apply includes_infix.
Qed.

(** X5.  With the ASCII case conversion, a text that itself contains an
    emergency keyword is classified [emergency]. *)
Lemma emergency_keyword_in_ascii_text (text keyword : string) :
  keyword ∈ tier_keywords "emergency" ->
  includes text keyword = true ->
  urgency_level (mockTriageSymptoms text) = "emergency".
Proof.
  intros Hk Hin. rewrite mockTriageSymptoms_unfold. cbv zeta.
  assert (tier_hit (toLowerCase text) "emergency" = true) as ->; [|done].
  apply some_included_true_iff. exists keyword. split; [done|].
  apply includes_lower_string; [|done].
  revert Hk. change (tier_keywords "emergency") with
    ["chest pain"; "difficulty breathing"; "severe bleeding"; "unconscious";
     "stroke"; "heart attack"].
  rewrite !elem_of_cons, elem_of_nil.
  intros [->|[->|[->|[->|[->|[->|[]]]]]]]; reflexivity.
Qed.

Lemma emergency_keyword_in_ascii_text_stroke :
  "stroke" ∈ tier_keywords "emergency"
  /\ includes "Signs of a stroke, and a rash" "stroke" = true
  /\ urgency_level (mockTriageSymptoms "Signs of a stroke, and a rash")
     = "emergency".
Proof.
  assert ("stroke" ∈ tier_keywords "emergency") as Hkeyword.
  { by_evaluation. }
  split; [exact Hkeyword|]. split; [reflexivity|].
  apply (emergency_keyword_in_ascii_text _ "stroke");
    [exact Hkeyword | reflexivity].
Defined.

(** ** The directory and the store on ordinary names *)

(** X1.  For each of the four tiers the search returns one clinic, whose
    address is a street followed by [", "] and the location, and it echoes
    the location and the urgency. *)
Theorem find_clinic_one_clinic_per_tier (loc tier : string) :
  tier ∈ tiers ->
  exists clinic street,
    clinics (mockFindClinic loc tier) = Own [clinic]
    /\ address clinic = street +:+ ", " +:+ loc
    /\ location (mockFindClinic loc tier) = loc
    /\ search_urgency_level (mockFindClinic loc tier) = tier.
Proof.
  intros Htier.
  destruct (find_clinic_valid_tier loc tier Htier)
    as (clinic & street & Hclinic & Haddress).
  by exists clinic, street.
Qed.

Lemma find_clinic_high_in_lyon :
  "high" ∈ tiers
  /\ exists clinic,
       clinics (mockFindClinic "Lyon" "high") = Own [clinic]
       /\ address clinic = "456 Oak Ave, Lyon".
Proof.
  assert ("high" ∈ tiers) as Htier.
  { by_evaluation. }
  split; [exact Htier|].
  destruct (find_clinic_one_clinic_per_tier "Lyon" "high" Htier)
    as (clinic & street & Hclinic & Haddress & _).
  exists clinic. split; [exact Hclinic|].
  vm_compute in Hclinic. by injection Hclinic as <-.
Defined.

Lemma find_clinic_critical_is_low :
  ("critical" ∉ tiers)
  /\ ("critical" ∉ Object_prototype)
  /\ clinics (mockFindClinic "Lyon" "critical")
     = clinics (mockFindClinic "Lyon" "low").
Proof.
  assert ("critical" ∉ tiers) as Htier.
  { by_evaluation. }
  assert ("critical" ∉ Object_prototype) as Hname.
  { by_evaluation. }
  split; [exact Htier|]. split; [exact Hname|].
  apply (find_clinic_unknown_urgency "Lyon" "critical" Htier Hname).
Defined.

Lemma append_order_alice :
  let a := {| role := "user"; content := "A" |} in
  let b := {| role := "assistant"; content := "B" |} in
  let c := {| role := "user"; content := "C" |} in
  ("alice" ∉ Object_prototype)
  /\ exists s1 s2 s3,
       append ∅ "alice" a = Some s1
       /\ append s1 "alice" b = Some s2
       /\ append s2 "alice" c = Some s3
       /\ get_history s3 "alice" = [a; b; c].
Proof.
  cbv zeta.
  assert ("alice" ∉ Object_prototype) as Hname.
  { by_evaluation. }
  split; [exact Hname|].
  destruct (append_order ∅ "alice"
              {| role := "user"; content := "A" |}
              {| role := "assistant"; content := "B" |}
              {| role := "user"; content := "C" |} Hname)
    as (s1 & s2 & s3 & H1 & H2 & H3 & Hhistory & _).
  exists s1, s2, s3. by rewrite Hhistory.
Defined.

Lemma chat_keeps_alice_history :
  let store : Store := {[ "alice" := [ {| role := "user"; content := "A" |} ] ]} in
  let r :=
    PostChat 1700000000000
      {| message := Some "my back hurts"; profile := None;
         user_id := Some "alice" |} in
  (forall uid, r <> PostResetConversation uid)
  /\ get_history store "alice"
     `prefix_of` get_history (handle r store).2 "alice".
Proof.
  cbv zeta. split; [intros uid; discriminate|].
  apply handle_keeps_history. intros uid. discriminate.
Defined.

(** * Further properties of the backend *)

(** ** Substring search, continued *)

Lemma includes_refl (s : string) : includes s s = true.
Proof.
  apply includes_true_iff. exists "", "". induction s as [|c s IH]; [done|].
  change (String c s = String c ("" +:+ s +:+ "")). by rewrite <- IH.
Qed.

Lemma includes_trans (a b c : string) :
  includes b a = true -> includes c b = true -> includes c a = true.
Proof.
  intros (pre1 & post1 & ->)%includes_true_iff
         (pre2 & post2 & ->)%includes_true_iff.
  apply includes_true_iff. exists (pre2 +:+ pre1), (post1 +:+ post2).
  by rewrite !append_assoc.
Qed.

Lemma includes_app_l (a b sub : string) :
  includes a sub = true -> includes (a +:+ b) sub = true.
Proof.
  intros (pre & post & ->)%includes_true_iff.
  apply includes_true_iff. exists pre, (post +:+ b). by rewrite !append_assoc.
Qed.

Lemma includes_app_r (a b sub : string) :
  includes b sub = true -> includes (a +:+ b) sub = true.
Proof.
  intros (pre & post & ->)%includes_true_iff.
  apply includes_true_iff. exists (a +:+ pre), post. by rewrite !append_assoc.
Qed.

(** Each part of a joined text occurs in it. *)
Lemma includes_join (sep part : string) (parts : list string) :
  part ∈ parts -> includes (join sep parts) part = true.
Proof.
  induction parts as [|p rest IH]; [by intros ?%elem_of_nil|].
  intros [->|Hrest]%elem_of_cons.
  - destruct rest; [apply includes_refl|].
    cbn [join]. apply includes_app_l, includes_refl.
  - destruct rest as [|q rest]; [by apply elem_of_nil in Hrest|].
    change (join sep (p :: q :: rest))
      with (p +:+ sep +:+ join sep (q :: rest)).
    by apply includes_app_r, includes_app_r, IH.
Qed.

(** Searches nested appends for a part the text is known to hold. *)
Ltac includes_in_chain :=
  first
    [ apply includes_refl
    | assumption
    | apply includes_app_l; includes_in_chain
    | apply includes_app_r; includes_in_chain ].

(** ** Triage classifier, continued *)

Section TriageMore.
Context `{StringCase}.

Lemma recommendations_by_level (text : string) :
  recommendations (mockTriageSymptoms text)
  = recommendations_of (urgency_level (mockTriageSymptoms text)).
Proof.
  rewrite mockTriageSymptoms_unfold. cbv zeta.
  by repeat destruct (tier_hit _ _).
Qed.

(** X6.  The recommendations depend on the tier alone: two texts of the
    same tier get the same recommendations, whichever keywords put them
    there, and also when one of them has no keyword at all. *)
Theorem recommendations_fixed_per_tier (text1 text2 : string) :
  urgency_level (mockTriageSymptoms text1)
  = urgency_level (mockTriageSymptoms text2) ->
  recommendations (mockTriageSymptoms text1)
  = recommendations (mockTriageSymptoms text2).
Proof. intros Hlevel. by rewrite !recommendations_by_level, Hlevel. Qed.

(** X7.  The classifier and the directory compose: whatever the text, the
    directory searched with the tier of its triage returns one clinic, in
    the location asked for, that accepts insurance. *)
Theorem triage_then_find_clinic (text loc : string) :
  exists clinic street,
    clinics (mockFindClinic loc (urgency_level (mockTriageSymptoms text)))
    = Own [clinic]
    /\ address clinic = street +:+ ", " +:+ loc
    /\ accepts_insurance clinic = true.
Proof.
  pose proof (triage_level_is_tier text) as Htier.
  unfold tiers in Htier. simpl in Htier.
  rewrite !elem_of_cons, elem_of_nil in Htier.
  destruct Htier as [->|[->|[->|[->|[]]]]].
  - eexists _, "123 Main St". by vm_compute.
  - eexists _, "456 Oak Ave". by vm_compute.
  - eexists _, "789 Pine St". by vm_compute.
  - eexists _, "321 Elm St". by vm_compute.
Qed.

End TriageMore.

(** A text with a low keyword and a text with no keyword: the reasoning
    differs, the recommendations do not. *)
Lemma recommendations_fatigue_and_fine :
  urgency_level (mockTriageSymptoms "fatigue since Monday")
  = urgency_level (mockTriageSymptoms "I feel fine")
  /\ reasoning (mockTriageSymptoms "fatigue since Monday")
     <> reasoning (mockTriageSymptoms "I feel fine")
  /\ recommendations (mockTriageSymptoms "fatigue since Monday")
     = recommendations (mockTriageSymptoms "I feel fine").
Proof.
  split; [reflexivity|]. split; [by vm_compute|].
  apply (recommendations_fixed_per_tier "fatigue since Monday" "I feel fine").
  reflexivity.
Defined.

(** With the ASCII case conversion, a keyword of a text is a keyword of
    every text that contains it. *)
Lemma tier_hit_monotone (inner outer level : string) :
  includes outer inner = true ->
  tier_hit (lower_string inner) level = true ->
  tier_hit (lower_string outer) level = true.
Proof.
  intros (pre & post & ->)%includes_true_iff
         (keyword & Hkeyword & Hin)%some_included_true_iff.
  apply some_included_true_iff. exists keyword. split; [done|].
  rewrite !lower_string_app.
  eapply includes_trans; [exact Hin|]. apply includes_infix.
Qed.

(** X8.  With the ASCII case conversion, saying more never lowers the
    urgency: a text that contains another text is classified at least as
    severe as the text it contains. *)
Theorem triage_monotone (inner outer : string) :
  includes outer inner = true ->
  severity (urgency_level (mockTriageSymptoms inner))
  <= severity (urgency_level (mockTriageSymptoms outer)).
Proof.
  intros Hin. rewrite !mockTriageSymptoms_unfold. cbv zeta.
  change (toLowerCase inner) with (lower_string inner).
  change (toLowerCase outer) with (lower_string outer).
  pose proof (tier_hit_monotone inner outer "emergency" Hin) as Hemergency.
  pose proof (tier_hit_monotone inner outer "high" Hin) as Hhigh.
  pose proof (tier_hit_monotone inner outer "medium" Hin) as Hmedium.
  destruct (tier_hit (lower_string inner) "emergency").
  { rewrite Hemergency by done. vm_compute; lia. }
  destruct (tier_hit (lower_string inner) "high").
  { rewrite Hhigh by done.
    destruct (tier_hit (lower_string outer) "emergency"); vm_compute; lia. }
  destruct (tier_hit (lower_string inner) "medium").
  { rewrite Hmedium by done.
    destruct (tier_hit (lower_string outer) "emergency");
      [|destruct (tier_hit (lower_string outer) "high")]; vm_compute; lia. }
  assert (forall level, 0 <= severity level) as Hzero by (intros; lia).
  destruct (tier_hit (lower_string inner) "low"); apply Hzero.
Qed.

Lemma triage_monotone_cough_then_stroke :
  let inner := "persistent cough" in
  let outer := "A persistent cough, then signs of a stroke" in
  includes outer inner = true
  /\ severity (urgency_level (mockTriageSymptoms inner)) = 1
  /\ severity (urgency_level (mockTriageSymptoms outer)) = 3
  /\ severity (urgency_level (mockTriageSymptoms inner))
     <= severity (urgency_level (mockTriageSymptoms outer)).
Proof.
  cbv zeta. split; [reflexivity|]. split; [reflexivity|].
  split; [reflexivity|].
  apply (triage_monotone "persistent cough"
           "A persistent cough, then signs of a stroke").
  reflexivity.
Defined.

(** ** Reply composer, continued *)

Section ComposerMore.
Context `{StringCase}.

(** X9.  The composer reads the message through its lower case only: two
    messages with the same lower case get the same triage and the same
    reply. *)
Theorem reply_is_case_insensitive (msg1 msg2 : string) (p : Profile) :
  toLowerCase msg1 = toLowerCase msg2 ->
  mockTriageSymptoms msg1 = mockTriageSymptoms msg2
  /\ compose_reply msg1 p = compose_reply msg2 p.
Proof.
  intros Hlower.
  assert (mockTriageSymptoms msg1 = mockTriageSymptoms msg2) as Htriage.
  { unfold mockTriageSymptoms. by rewrite Hlower. }
  split; [exact Htriage|].
  unfold compose_reply. cbv zeta. by rewrite Hlower, Htriage.
Qed.

Lemma recommendation_line_in_lines (triage : TriageResult) (rec : string) :
  rec ∈ recommendations triage ->
  includes (recommendation_lines triage) (bullet +:+ rec) = true.
Proof.
  intros Hrec. apply includes_join.
  apply list_elem_of_In, in_map, list_elem_of_In, Hrec.
Qed.

(** X10.  A reply of the pain branch or of the fever branch lists every
    recommendation of the triage, each on a bulleted line. *)
Theorem reply_lists_recommendations (msg reply rec : string) (p : Profile) :
  let mentions := some_included (toLowerCase msg) in
  mentions ["hello"; "hi"] = false ->
  mentions ["pain"; "hurt"; "ache"] = true
  \/ mentions ["fever"; "temperature"] = true ->
  compose_reply msg p = Returned reply ->
  rec ∈ recommendations (mockTriageSymptoms msg) ->
  includes reply (bullet +:+ rec) = true.
Proof.
  cbv zeta. intros Hgreeting Hbranch Hreply Hrec.
  apply recommendation_line_in_lines in Hrec.
  rewrite compose_reply_unfold in Hreply. cbv zeta in Hreply.
  rewrite Hgreeting in Hreply.
  destruct (some_included _ ["pain"; "hurt"; "ache"]).
  - destruct (with_clinics_tier (location_of p)
                (urgency_level (mockTriageSymptoms msg))
                (pain_reply (mockTriageSymptoms msg) (location_of p))
                (triage_level_is_tier msg)) as (found & _ & Hfound).
    rewrite Hfound in Hreply. injection Hreply as <-.
    unfold pain_reply. includes_in_chain.
  - destruct Hbranch as [|Hfever]; [done|]. rewrite Hfever in Hreply.
    injection Hreply as <-. unfold fever_reply. includes_in_chain.
Qed.

(** X11.  A reply of the pain branch or of the clinic branch names the
    location asked for and shows, for the clinic it proposes, the name, the
    address, the phone number and the waiting time. *)
Theorem reply_shows_clinic (msg reply : string) (p : Profile) :
  let mentions := some_included (toLowerCase msg) in
  mentions ["hello"; "hi"] = false ->
  mentions ["pain"; "hurt"; "ache"] = true
  \/ (mentions ["fever"; "temperature"] = false
      /\ mentions ["insurance"; "coverage"] = false
      /\ mentions ["clinic"; "doctor"; "appointment"] = true) ->
  compose_reply msg p = Returned reply ->
  exists tier clinic,
    tier ∈ tiers
    /\ clinics (mockFindClinic (location_of p) tier) = Own [clinic]
    /\ includes reply (location_of p) = true
    /\ includes reply (name clinic) = true
    /\ includes reply (address clinic) = true
    /\ includes reply (phone clinic) = true
    /\ includes reply (wait_time clinic) = true.
Proof.
  cbv zeta. intros Hgreeting Hbranch Hreply.
  rewrite compose_reply_unfold in Hreply. cbv zeta in Hreply.
  rewrite Hgreeting in Hreply.
  destruct (some_included _ ["pain"; "hurt"; "ache"]).
  - pose proof (triage_level_is_tier msg) as Htier.
    destruct (with_clinics_tier (location_of p)
                (urgency_level (mockTriageSymptoms msg))
                (pain_reply (mockTriageSymptoms msg) (location_of p))
                Htier) as (found & Hclinics & Hfound).
    rewrite Hfound in Hreply. injection Hreply as <-.
    exists (urgency_level (mockTriageSymptoms msg)), found.
    split; [done|]. split; [done|].
    unfold pain_reply. cbn [join map]. unfold pain_clinic_line.
    repeat split; includes_in_chain.
  - destruct Hbranch as [|(Hfever & Hinsurance & Hclinic)]; [done|].
    rewrite Hfever, Hinsurance, Hclinic in Hreply.
    assert ("medium" ∈ tiers) as Htier by by_evaluation.
    destruct (with_clinics_tier (location_of p) "medium"
                (clinic_reply (location_of p)) Htier)
      as (found & Hclinics & Hfound).
    rewrite Hfound in Hreply. injection Hreply as <-.
    exists "medium", found. split; [done|]. split; [done|].
    unfold clinic_reply. cbn [join map]. unfold clinic_card.
    repeat split; includes_in_chain.
Qed.

End ComposerMore.

Lemma reply_in_capitals :
  let p := {| profile_location := None |} in
  toLowerCase "I HAVE CHEST PAIN" = toLowerCase "i have chest pain"
  /\ compose_reply "I HAVE CHEST PAIN" p = compose_reply "i have chest pain" p.
Proof.
  cbv zeta. split; [reflexivity|].
  apply (reply_is_case_insensitive "I HAVE CHEST PAIN" "i have chest pain").
  reflexivity.
Defined.

Lemma reply_lists_monitor_symptoms :
  let msg := "my back hurts" in
  let p := {| profile_location := None |} in
  exists reply,
    some_included (toLowerCase msg) ["hello"; "hi"] = false
    /\ some_included (toLowerCase msg) ["pain"; "hurt"; "ache"] = true
    /\ compose_reply msg p = Returned reply
    /\ "Monitor symptoms" ∈ recommendations (mockTriageSymptoms msg)
    /\ includes reply "• Monitor symptoms" = true.
Proof.
  cbv zeta.
  destruct (compose_reply_returns "my back hurts"
              {| profile_location := None |}) as [reply Hreply].
  assert ("Monitor symptoms"
          ∈ recommendations (mockTriageSymptoms "my back hurts")) as Hrec
    by by_evaluation.
  exists reply.
  split; [reflexivity|]. split; [reflexivity|]. split; [exact Hreply|].
  split; [exact Hrec|].
  apply (reply_lists_recommendations "my back hurts" reply "Monitor symptoms"
           {| profile_location := None |});
    [reflexivity | left; reflexivity | exact Hreply | exact Hrec].
Defined.

Lemma reply_shows_clinic_in_lyon :
  let msg := "I need a doctor" in
  let p := {| profile_location := Some "Lyon" |} in
  exists reply,
    some_included (toLowerCase msg) ["hello"; "hi"] = false
    /\ some_included (toLowerCase msg) ["clinic"; "doctor"; "appointment"]
       = true
    /\ compose_reply msg p = Returned reply
    /\ includes reply "Lyon" = true
    /\ includes reply "Family Health Center" = true
    /\ includes reply "789 Pine St, Lyon" = true.
Proof.
  cbv zeta.
  destruct (compose_reply_returns "I need a doctor"
              {| profile_location := Some "Lyon" |}) as [reply Hreply].
  exists reply.
  split; [reflexivity|]. split; [reflexivity|]. split; [exact Hreply|].
  destruct (reply_shows_clinic "I need a doctor" reply
              {| profile_location := Some "Lyon" |})
    as (tier & clinic & _ & _ & Hloc & _);
    [reflexivity | right; repeat split; reflexivity | exact Hreply |].
  split; [exact Hloc|].
  vm_compute in Hreply. injection Hreply as <-. split; reflexivity.
Defined.

(** ** Request handlers, continued *)

Section HandlersMore.
Context `{StringCase}.
Implicit Types (store : Store) (req : ChatRequest) (now : N).

(** Creating the session on demand and pushing: what the property read
    decides. *)
Lemma push_init_session store (user : string) (m : Message) :
  push (init_session store user) user m =
  match get_property store user with
  | Own messages => Some (<[user := (messages ++ [m])%list]> store)
  | Undefined => Some (<[user := [m]]> store)
  | Inherited _ => None
  end.
Proof.
  unfold init_session, push, get_property.
  destruct (store !! user) as [messages|] eqn:Huser.
  - by rewrite Huser.
  - case_bool_decide as Hname.
    + by rewrite Huser.
    + by rewrite lookup_insert_eq, insert_insert_eq.
Qed.

(** The chat handler, by the three ways its lookup can end. *)
Lemma chat_cases now req store (text : string) :
  let user := default "default" (user_id req) in
  let p := default {| profile_location := None |} (profile req) in
  message req = Some text -> text <> "" ->
  exists reply,
    compose_reply text p = Returned reply
    /\ chat now req store =
       match get_property store user with
       | Inherited _ => (internal_server_error, store)
       | _ =>
           (json (ChatJson reply "success"
                    ("thread_" +:+ user +:+ "_" +:+ pretty now)),
            <[user := (get_history store user
                       ++ [ {| role := "user"; content := text |};
                            {| role := "assistant"; content := reply |} ])%list]>
              store)
       end.
Proof.
  cbv zeta. intros Hmessage Htext.
  destruct (compose_reply_returns text
              (default {| profile_location := None |} (profile req)))
    as [reply Hreply].
  exists reply. split; [done|].
  unfold chat, chat_try. rewrite Hmessage.
  apply String.eqb_neq in Htext. rewrite Htext.
  rewrite push_init_session. unfold get_property, get_history.
  set (user := default "default" (user_id req)).
  destruct (store !! user) as [messages|] eqn:Huser; simpl.
  - rewrite Hreply. unfold push.
    rewrite (get_property_own _ _ _ (lookup_insert_eq _ _ _)).
    by rewrite insert_insert_eq, <- (assoc_L (++)).
  - case_bool_decide as Hname.
    + unfold init_session, get_property.
      by rewrite Huser, bool_decide_eq_true_2.
    + rewrite Hreply. unfold push.
      rewrite (get_property_own _ _ _ (lookup_insert_eq _ _ _)).
      by rewrite insert_insert_eq.
Qed.

End HandlersMore.

Section ChatProperties.
Context `{StringCase}.
Implicit Types (store : Store) (req : ChatRequest) (now : N).



(** X14.  A chat request of one user touches no session of another. *)
Theorem chat_keeps_other_sessions now req store (other : string) :
  other <> default "default" (user_id req) ->
  (chat now req store).2 !! other = store !! other.
Proof.
  intros Hother. destruct (message req) as [text|] eqn:Hmessage.
  2:{ unfold chat, chat_try. by rewrite Hmessage. }
  destruct (decide (text = "")) as [->|Htext].
  { unfold chat, chat_try. by rewrite Hmessage. }
  destruct (chat_cases now req store text Hmessage Htext)
    as (reply & _ & ->).
  destruct (get_property store _); simpl; try done;
    by rewrite lookup_insert_ne.
Qed.

(** X15.  The reply does not depend on the conversation so far: two
    requests with the same message and profile that are both answered 200
    get the same reply, whatever the stores, the users and the times. *)
Theorem chat_reply_ignores_history now1 now2 req1 req2 store1 store2 :
  message req1 = message req2 -> profile req1 = profile req2 ->
  status_code (chat now1 req1 store1).1 = 200 ->
  status_code (chat now2 req2 store2).1 = 200 ->
  exists reply thread1 thread2,
    body (chat now1 req1 store1).1 = ChatJson reply "success" thread1
    /\ body (chat now2 req2 store2).1 = ChatJson reply "success" thread2.
Proof.
  intros Hmessage Hprofile.
  destruct (message req1) as [text|] eqn:Hmessage1.
  2:{ unfold chat at 1, chat_try. by rewrite Hmessage1. }
  destruct (decide (text = "")) as [->|Htext].
  { unfold chat at 1, chat_try. by rewrite Hmessage1. }
  symmetry in Hmessage.
  destruct (chat_cases now1 req1 store1 text Hmessage1 Htext)
    as (reply1 & Hreply1 & ->).
  destruct (chat_cases now2 req2 store2 text Hmessage Htext)
    as (reply2 & Hreply2 & ->).
  rewrite <- Hprofile, Hreply1 in Hreply2. injection Hreply2 as <-.
  destruct (get_property store1 _); simpl; try done;
    destruct (get_property store2 _); simpl; try done;
    intros _ _; by eexists _, _, _.
Qed.

End ChatProperties.

(** ** The stores the server reaches *)

Section ReachableStores.
Context `{StringCase}.
Implicit Types (store : Store) (history : list Message).



End ReachableStores.


(** ** Reset, upload and the error responses *)




(** A chat response with an [ok] status carries a reply. *)
Lemma chat_ok_carries_reply `{StringCase} (now : N) (req : ChatRequest)
    (store : Store) :
  status_code (chat now req store).1 = 200 ->
  exists reply thread,
    (chat now req store).1 = json (ChatJson reply "success" thread).
Proof.
  destruct (message req) as [text|] eqn:Hmessage.
  2:{ unfold chat, chat_try. by rewrite Hmessage. }
  destruct (decide (text = "")) as [->|Htext].
  { unfold chat, chat_try. by rewrite Hmessage. }
  destruct (chat_cases now req store text Hmessage Htext)
    as (reply & _ & ->).
  destruct (get_property store _); simpl; try done; by eexists _, _.
Qed.


(** X19.  An upload is accepted exactly when a file came with the request
    and its type is [application/pdf], compared as written; without a file
    the answer is 400 [No file provided], with a file of another type 400
    [Only PDF files are allowed].  The error middleware answers 413 to
    multer's size error alone, and 500 to every other error. *)
Theorem upload_accepts_pdf_only (file : option UploadedFile)
    (err : ServerError) :
  (status_code (upload file) = 200 <->
   exists f, file = Some f /\ mimetype f = "application/pdf")
  /\ (file = None ->
      upload file = status_json 400 (ErrorJson "No file provided"))
  /\ (forall f,
        file = Some f -> mimetype f <> "application/pdf" ->
        upload file = status_json 400 (ErrorJson "Only PDF files are allowed"))
  /\ (status_code (error_handler err) = 413 <->
      err = MulterError "LIMIT_FILE_SIZE")
  /\ (err <> MulterError "LIMIT_FILE_SIZE" ->
      error_handler err = status_json 500 (ErrorJson "Internal server error")).
Proof.
  split; [|split; [|split; [|split]]].
  - unfold upload. destruct file as [f|]; simpl.
    + destruct (String.eqb_spec (mimetype f) "application/pdf") as [Hpdf|Hpdf];
        simpl; [naive_solver|].
      split; [done|]. by intros (g & [= <-] & ?).
    + split; [done|]. by intros (g & ? & _).
  - by intros ->.
  - intros f -> Htype. unfold upload.
    apply String.eqb_neq in Htype. by rewrite Htype.
  - destruct err as [code|description]; simpl; [|by split].
    destruct (String.eqb_spec code "LIMIT_FILE_SIZE") as [->|Hcode]; simpl.
    + by split.
    + split; [done|]. by intros [= ->].
  - destruct err as [code|description]; simpl; [|done].
    destruct (String.eqb_spec code "LIMIT_FILE_SIZE") as [->|Hcode]; simpl;
      [by intros []|done].
Qed.

Lemma upload_refuses_other_types :
  let f :=
    {| originalname := "card.pdf"; mimetype := "application/PDF";
       file_content := "%PDF-1.7" |} in
  mimetype f <> "application/pdf"
  /\ upload (Some f)
     = status_json 400 (ErrorJson "Only PDF files are allowed").
Proof.
  cbv zeta. split; [discriminate|].
  destruct (upload_accepts_pdf_only
              (Some {| originalname := "card.pdf";
                       mimetype := "application/PDF";
                       file_content := "%PDF-1.7" |})
              (OtherError "")) as (_ & _ & Hother & _).
  apply (Hother _ eq_refl). discriminate.
Defined.

(** * Properties of the chat client *)

(** ** The fallback composer *)

Section Fallback.
Context `{StringCase}.

Lemma fallback_responses_differ :
  App.headache_fever_response <> App.chest_pain_response
  /\ App.clinic_response <> App.chest_pain_response
  /\ App.fallback_response <> App.chest_pain_response.
Proof. repeat split; intros Heq; vm_compute in Heq; discriminate. Qed.

(** X20.  The fallback gives its urgent text exactly when the lower-cased
    input contains [chest pain] and contains neither [headache] nor
    [fever]. *)
Theorem fallback_urgent_iff (input : string) :
  App.generateMockResponse input = App.chest_pain_response <->
  includes (toLowerCase input) "chest pain" = true
  /\ includes (toLowerCase input) "headache" = false
  /\ includes (toLowerCase input) "fever" = false.
Proof.
  destruct fallback_responses_differ as (Hfever & Hclinic & Hfallback).
  unfold App.generateMockResponse. cbv zeta.
  destruct (includes _ "headache"); simpl; [naive_solver|].
  destruct (includes _ "fever"); simpl; [naive_solver|].
  destruct (includes _ "chest pain"); [naive_solver|].
  destruct (_ || _ || _); naive_solver.
Qed.

(** X21.  The fallback and the server rank symptoms differently: an input
    that mentions chest pain together with a headache or a fever gets the
    fallback's medium-urgency text, while the server's triage of the same
    input is [emergency]. *)
Theorem fallback_disagrees_with_triage (input : string) :
  includes (toLowerCase input) "chest pain" = true ->
  includes (toLowerCase input) "headache" = true
  \/ includes (toLowerCase input) "fever" = true ->
  App.generateMockResponse input = App.headache_fever_response
  /\ includes App.headache_fever_response "Medium urgency" = true
  /\ urgency_level (mockTriageSymptoms input) = "emergency".
Proof.
  intros Hchest Hother. split; [|split].
  - unfold App.generateMockResponse. cbv zeta.
    by destruct Hother as [-> | ->]; rewrite ?orb_true_r.
  - by vm_compute.
  - rewrite mockTriageSymptoms_unfold. cbv zeta.
    assert (tier_hit (toLowerCase input) "emergency" = true) as ->; [|done].
    apply some_included_true_iff. exists "chest pain".
    split; [by_evaluation | done].
Qed.

End Fallback.

Lemma fallback_chest_pain_and_fever :
  let input := "Chest pain and a fever" in
  includes (toLowerCase input) "chest pain" = true
  /\ includes (toLowerCase input) "fever" = true
  /\ App.generateMockResponse input = App.headache_fever_response
  /\ urgency_level (mockTriageSymptoms input) = "emergency".
Proof.
  cbv zeta. split; [reflexivity|]. split; [reflexivity|].
  destruct (fallback_disagrees_with_triage "Chest pain and a fever")
    as (Hfallback & _ & Htriage);
    [reflexivity | right; reflexivity |].
  split; [exact Hfallback | exact Htriage].
Defined.

(** ** The client in front of the server *)

Section ClientAndServer.
Context `{App.StringTrim} `{StringCase}.
Implicit Types (ui : App.State) (store : Store).

Lemma demo_user_is_ordinary : "demo_user" ∉ Object_prototype.
Proof. by_evaluation. Qed.

Lemma trimmed_input_is_not_empty (input : string) :
  App.trim input <> "" -> input <> "".
Proof. intros Htrim ->. apply Htrim, App.trim_empty. Qed.

(** A blank input, or a request still pending, sends nothing. *)
Lemma send_to_server_blocked (clock : App.Clock) (server_now : N) ui store :
  App.trim (App.inputMessage ui) = "" \/ App.isLoading ui = true ->
  send_to_server clock server_now ui store = (ui, store).
Proof.
  intros Hguard. unfold send_to_server, App.sendMessage.
  assert (String.eqb (App.trim (App.inputMessage ui)) "" || App.isLoading ui
          = true) as ->; [|done].
  destruct Hguard as [-> | ->]; [done | by rewrite orb_true_r].
Qed.

Lemma send_to_server_effect (clock : App.Clock) (server_now : N) ui store :
  App.trim (App.inputMessage ui) <> "" -> App.isLoading ui = false ->
  exists reply,
    compose_reply (App.inputMessage ui)
      {| profile_location := Some (App.location (App.profile ui)) |}
    = Returned reply
    /\ shown (send_to_server clock server_now ui store).1
       = (shown ui
          ++ [("user", App.inputMessage ui); ("assistant", reply)])%list
    /\ recorded (send_to_server clock server_now ui store).2 "demo_user"
       = (recorded store "demo_user"
          ++ [("user", App.inputMessage ui); ("assistant", reply)])%list
    /\ App.inputMessage (send_to_server clock server_now ui store).1 = ""
    /\ App.isLoading (send_to_server clock server_now ui store).1 = false.
Proof.
  intros Htrim Hloading.
  pose proof (trimmed_input_is_not_empty _ Htrim) as Hinput.
  destruct (chat_success server_now (App.chat_request ui) store
              (App.inputMessage ui) eq_refl Hinput demo_user_is_ordinary)
    as (reply & Hreply & Hchat).
  exists reply. split; [exact Hreply|].
  unfold send_to_server, App.sendMessage.
  apply String.eqb_neq in Htrim. rewrite Htrim, Hloading, Hchat. simpl.
  unfold shown, recorded. simpl.
  rewrite get_history_insert, decide_True by done.
  by rewrite !map_app.
Qed.

(** X22.  With the server up, a message that is not blank, sent while no
    request is pending, is answered by the server and not by the fallback:
    the client shows the message and then the reply the server composed
    for it, the server records the same two texts for [demo_user], and the
    input is cleared. *)
Theorem send_shows_server_reply (clock : App.Clock) (server_now : N) ui store :
  App.trim (App.inputMessage ui) <> "" -> App.isLoading ui = false ->
  let system := send_to_server clock server_now ui store in
  exists reply,
    compose_reply (App.inputMessage ui)
      {| profile_location := Some (App.location (App.profile ui)) |}
    = Returned reply
    /\ shown system.1
       = (shown ui
          ++ [("user", App.inputMessage ui); ("assistant", reply)])%list
    /\ recorded system.2 "demo_user"
       = (recorded store "demo_user"
          ++ [("user", App.inputMessage ui); ("assistant", reply)])%list
    /\ App.inputMessage system.1 = ""
    /\ App.isLoading system.1 = false.
Proof. cbv zeta. apply send_to_server_effect. Qed.

(** After a turn the client still shows its first message and then what
    the server has recorded. *)
Lemma send_turn_in_step (turn : string * App.Clock * N) ui store
    (first : string * string) :
  App.isLoading ui = false ->
  shown ui = first :: recorded store "demo_user" ->
  App.isLoading (send_turn (ui, store) turn).1 = false
  /\ shown (send_turn (ui, store) turn).1
     = first :: recorded (send_turn (ui, store) turn).2 "demo_user".
Proof.
  destruct turn as [[value clock] server_now]. intros Hloading Hshown.
  unfold send_turn. cbn [fst snd].
  destruct (decide (App.trim value = "")) as [Hblank|Htyped].
  - rewrite send_to_server_blocked by (by left). by split.
  - destruct (send_to_server_effect clock server_now
                (App.typeInput value ui) store Htyped Hloading)
      as (reply & _ & Hui & Hstore & _ & Hidle).
    split; [exact Hidle|].
    rewrite Hui, Hstore. cbn [App.inputMessage App.typeInput].
    change (shown (App.typeInput value ui)) with (shown ui).
    by rewrite Hshown.
Qed.

(** X23.  Client and server stay in step over a conversation: starting
    from the mounted client and a server with no session for [demo_user],
    after any number of turns the client shows its greeting followed by
    exactly what the server has recorded for [demo_user], and no request is
    pending. *)
Theorem conversation_in_step (turns : list (string * App.Clock * N))
    (date : N) store :
  store !! "demo_user" = None ->
  let system := conversation turns (App.initial date, store) in
  shown system.1 = ("assistant", App.greeting) :: recorded system.2 "demo_user"
  /\ App.isLoading system.1 = false.
Proof.
  intros Hfresh. cbv zeta.
  assert (forall ui store',
            App.isLoading ui = false ->
            shown ui = ("assistant", App.greeting)
                       :: recorded store' "demo_user" ->
            shown (conversation turns (ui, store')).1
            = ("assistant", App.greeting)
              :: recorded (conversation turns (ui, store')).2 "demo_user"
            /\ App.isLoading (conversation turns (ui, store')).1 = false)
    as Hstep.
  { unfold conversation.
    induction turns as [|turn turns IH]; intros ui store' Hloading Hshown;
      [done|].
    cbn [fold_left].
    destruct (send_turn_in_step turn ui store' _ Hloading Hshown)
      as [Hidle Hnext].
    destruct (send_turn (ui, store') turn) as [ui1 store1].
    by apply IH. }
  apply Hstep; [done|].
  unfold shown, recorded, get_history. by rewrite Hfresh.
Qed.

End ClientAndServer.

Lemma send_fever_to_fresh_server :
  let clock :=
    {| App.sent_now := 1700000000000; App.sent_date := 1700000000000;
       App.answered_now := 1700000000040;
       App.answered_date := 1700000000041 |} in
  let ui := App.typeInput "I have a fever" (App.initial 1699999999000) in
  App.trim (App.inputMessage ui) <> ""
  /\ App.isLoading ui = false
  /\ exists reply,
       shown (send_to_server clock 1700000000020 ui ∅).1
       = [ ("assistant", App.greeting); ("user", "I have a fever");
           ("assistant", reply) ]
       /\ recorded (send_to_server clock 1700000000020 ui ∅).2 "demo_user"
          = [ ("user", "I have a fever"); ("assistant", reply) ].
Proof.
  cbv zeta. split; [by vm_compute|]. split; [reflexivity|].
  destruct (send_shows_server_reply
              {| App.sent_now := 1700000000000;
                 App.sent_date := 1700000000000;
                 App.answered_now := 1700000000040;
                 App.answered_date := 1700000000041 |}
              1700000000020
              (App.typeInput "I have a fever" (App.initial 1699999999000)) ∅)
    as (reply & _ & Hui & Hstore & _);
    [by vm_compute | reflexivity |].
  exists reply. split; [exact Hui | exact Hstore].
Defined.

Lemma conversation_of_two_turns_in_step :
  let clock :=
    {| App.sent_now := 1700000000000; App.sent_date := 1700000000000;
       App.answered_now := 1700000000040;
       App.answered_date := 1700000000041 |} in
  let turns :=
    [ ("I have a fever", clock, 1700000000020%N);
      ("   ", clock, 1700000000050%N);
      ("thank you", clock, 1700000000090%N) ] in
  let system := conversation turns (App.initial 1699999999000, ∅) in
  (∅ : Store) !! "demo_user" = None
  /\ length (recorded system.2 "demo_user") = 4
  /\ shown system.1
     = ("assistant", App.greeting) :: recorded system.2 "demo_user".
Proof.
  cbv zeta. split; [reflexivity|]. split; [by vm_compute|].
  apply (conversation_in_step _ 1699999999000 ∅). reflexivity.
Defined.

(** ** The client's state *)

Section ClientState.
Context `{App.StringTrim} `{StringCase}.

Lemma client_ok_step (s : App.State) (e : App.Event) :
  client_ok s -> client_ok (App.step s e).
Proof.
  intros (Hidle & (date & rest & Hfirst) & Hsenders & Hfile).
  assert (forall m, App.sender m = "assistant" ->
            Forall (fun m => App.sender m = "assistant"
                             \/ (App.sender m = "user"
                                 /\ App.trim (App.text m) <> ""))
              (App.messages s ++ [m])%list) as Hassistant.
  { intros m Hm. apply Forall_app. split; [done|].
    apply Forall_cons. split; [by left|]. apply Forall_nil_2. }
  assert (client_ok s) as Hs.
  { split; [done|]. split; [by eexists _, _|]. by split. }
  destruct e as [value|clock outcome|now date' picked|date'|value|];
    unfold client_ok; simpl.
  - split; [done|]. split; [by eexists _, _|]. by split.
  - unfold App.sendMessage. rewrite Hidle, orb_false_r.
    destruct (String.eqb_spec (App.trim (App.inputMessage s)) "")
      as [Hblank|Htyped]; simpl; [exact Hs|].
    split; [done|]. split; [|split; [|done]].
    + rewrite Hfirst. by eexists _, _.
    + apply Forall_app. split; [done|].
      apply Forall_cons. split; [by right|].
      apply Forall_cons. split; [by left|]. apply Forall_nil_2.
  - unfold App.handleFileUpload. destruct picked as [file|]; [|exact Hs].
    destruct (String.eqb_spec (App.type file) "application/pdf")
      as [Hpdf|Hother]; simpl; [|exact Hs].
    split; [done|]. split; [|split; [|done]].
    + rewrite Hfirst. by eexists _, _.
    + by apply Hassistant.
  - split; [done|]. split; [by eexists _, _|]. split; [|done].
    apply Forall_cons. split; [by left|]. apply Forall_nil_2.
  - split; [done|]. split; [by eexists _, _|]. split; [done|].
    by destruct (App.uploadedFile s).
  - split; [done|]. split; [by eexists _, _|]. by split.
Qed.

(** X24.  Whatever the user does, in whatever order, after the handlers
    have run: no request is pending; the conversation opens with the
    greeting; every message is the assistant's or a user message that is
    not blank; and the profile holds an insurance summary exactly when a
    file is held, which is then a PDF. *)
Theorem client_state_invariant (events : list App.Event) (date : N) :
  let s := App.run events (App.initial date) in
  App.isLoading s = false
  /\ (exists date' rest, App.messages s = App.greeting_message date' :: rest)
  /\ Forall (fun m => App.sender m = "assistant"
                      \/ (App.sender m = "user"
                          /\ App.trim (App.text m) <> ""))
       (App.messages s)
  /\ (is_Some (App.uploadedFile s)
      <-> is_Some (App.insurance_summary (App.profile s)))
  /\ (forall file,
        App.uploadedFile s = Some file -> App.type file = "application/pdf").
Proof.
  cbv zeta.
  assert (client_ok (App.run events (App.initial date)))
    as (Hidle & Hfirst & Hsenders & Hfile).
  { assert (client_ok (App.initial date)) as Hstart.
    { split; [done|]. split; [by eexists _, _|]. split; [|done].
      apply Forall_cons. split; [by left|]. apply Forall_nil_2. }
    revert Hstart. generalize (App.initial date). unfold App.run.
    induction events as [|e events IH]; intros s Hs; [done|].
    cbn [fold_left]. by apply IH, client_ok_step. }
  split; [done|]. split; [done|]. split; [done|].
  destruct (App.uploadedFile _) as [file|].
  - destruct Hfile as [Hpdf ->]. split; [by split|]. by intros ? [= <-].
  - rewrite Hfile. split; [|done]. split; by intros [? ?].
Qed.

End ClientState.

(** ** Requests on concrete stores *)


Lemma chat_of_alice_keeps_bob :
  let store : Store :=
    {[ "bob" := [ {| role := "user"; content := "B" |} ] ]} in
  let req :=
    {| message := Some "my back hurts"; profile := None;
       user_id := Some "alice" |} in
  "bob" <> default "default" (user_id req)
  /\ (chat 1700000000000 req store).2 !! "bob" = store !! "bob".
Proof.
  cbv zeta. split; [discriminate|].
  apply (chat_keeps_other_sessions 1700000000000
           {| message := Some "my back hurts"; profile := None;
              user_id := Some "alice" |}).
  discriminate.
Defined.

Lemma chat_same_reply_for_alice_and_bob :
  let store : Store :=
    {[ "bob" := [ {| role := "user"; content := "B" |} ] ]} in
  let req user :=
    {| message := Some "my back hurts"; profile := None;
       user_id := Some user |} in
  status_code (chat 1700000000000 (req "alice") ∅).1 = 200
  /\ status_code (chat 1700000000999 (req "bob") store).1 = 200
  /\ exists reply thread1 thread2,
       body (chat 1700000000000 (req "alice") ∅).1
       = ChatJson reply "success" thread1
       /\ body (chat 1700000000999 (req "bob") store).1
          = ChatJson reply "success" thread2.
Proof.
  cbv zeta. split; [reflexivity|]. split; [reflexivity|].
  apply (chat_reply_ignores_history 1700000000000 1700000000999
           {| message := Some "my back hurts"; profile := None;
              user_id := Some "alice" |}
           {| message := Some "my back hurts"; profile := None;
              user_id := Some "bob" |});
    reflexivity.
Defined.
